(** * Templated email dispatch service

    A shallow embedding of [email_system.email_service.service.EmailService]
    together with the content variants of
    [email_system.email_service.types] and the data models of
    [email_system.core.models], followed by the properties of the dispatch
    pipeline: per-recipient fault isolation, fatal failures of the plain
    send, the skip policy of batches, validation, the style-inlining
    fallback and service construction.

    Python values are embedded as follows: [str] is [string], [int] is [Z],
    [float] is a binary64 primitive float, [Optional[T]] is [option T], a
    dictionary built by the code is an insertion-ordered association list
    ([pydict]), a dictionary received from the caller is a [gmap].  Code
    that raises is embedded in a state-and-exception monad over the
    external world (clock, file system, template engine, style inliner,
    delivery provider) and the log. *)

From Stdlib Require Import ZArith Ascii String List Bool DecimalString.
From Stdlib Require Import PrimFloat SpecFloat FloatOps.
From stdpp Require Import gmap strings list.

Local Open Scope string_scope.
Local Open Scope Z_scope.
Local Open Scope list_scope.

(** ** Python values *)

(** The values that reach a template or a provider call. *)
#[local] Set Warnings "-register-all".
Inductive pyval :=
| PNone
| PBool (b : bool)
| PInt (z : Z)
| PStr (s : string)
| PList (l : list pyval)
| PDict (d : list (string * pyval)).
#[local] Set Warnings "register-all".

(** A [dict] with string keys, in insertion order. *)
Abbreviation pydict := (list (string * pyval)).

Module Dict.

(** [key in d] *)
Fixpoint mem (k : string) (d : pydict) : bool :=
  match d with
  | [] => false
  | (k', _) :: d' => if String.eqb k k' then true else mem k d'
  end.

(** [d.get(key)], [None] when the key is absent. *)
Fixpoint get (k : string) (d : pydict) : option pyval :=
  match d with
  | [] => None
  | (k', v) :: d' => if String.eqb k k' then Some v else get k d'
  end.

(** [d.get(key, default)] *)
Definition get_default (k : string) (dflt : pyval) (d : pydict) : pyval :=
  match get k d with
  | Some v => v
  | None => dflt
  end.

(** [d[key] = v]: an existing key keeps its position, a new key goes last. *)
Fixpoint set (k : string) (v : pyval) (d : pydict) : pydict :=
  match d with
  | [] => [(k, v)]
  | (k', v') :: d' =>
      if String.eqb k k' then (k, v) :: d' else (k', v') :: set k v d'
  end.

(** [d.update(other)] *)
Definition update (d other : pydict) : pydict :=
  fold_left (fun acc kv => set (fst kv) (snd kv) acc) other d.

(** The keys of [d], in order. *)
Definition keys (d : pydict) : list string := map fst d.

End Dict.

(** Truthiness of a [str] and of an [Optional[str]]. *)
Definition str_truthy (s : string) : bool := negb (String.eqb s "").

Definition opt_truthy (o : option string) : bool :=
  match o with
  | Some s => str_truthy s
  | None => false
  end.

(** [o or dflt] for an [Optional[str]] [o]. *)
Definition str_or (o : option string) (dflt : string) : string :=
  match o with
  | Some s => if str_truthy s then s else dflt
  | None => dflt
  end.

(** An [Optional[str]] as a template value. *)
Definition opt_str (o : option string) : pyval :=
  match o with
  | Some s => PStr s
  | None => PNone
  end.

(** [str(n)] for an integer. *)
Definition str_of_Z (z : Z) : string := NilZero.string_of_int (Z.to_int z).

(** ** Exceptions *)

(** The exception classes of [email_system.core.exceptions] that the
    service meets, the ones of the libraries it calls, and the built-in
    ones its own expressions can raise. *)
Inductive exn_class :=
| EmailSystemError
| ConfigurationError
| ValidationError
| EmailServiceError
| TemplateNotFoundError
| EmailDeliveryError
| TemplateNotFound          (* jinja2 *)
| PydanticValidationError   (* pydantic *)
| ValueError
| TypeError
| AttributeError
| OverflowError
| OtherException (qualname : string).

(** An exception instance; [exn_msg] is [str(e)]. *)
Record exn := mk_exn { exn_cls : exn_class; exn_msg : string }.

(** The direct base class inside the hierarchy ([None] stands for
    [Exception] itself). *)
Definition base_class (c : exn_class) : option exn_class :=
  match c with
  | ConfigurationError | ValidationError | EmailServiceError => Some EmailSystemError
  | TemplateNotFoundError | EmailDeliveryError => Some EmailServiceError
  | PydanticValidationError => Some ValueError
  | _ => None
  end.

Definition exn_class_eqb (c1 c2 : exn_class) : bool :=
  match c1, c2 with
  | EmailSystemError, EmailSystemError
  | ConfigurationError, ConfigurationError
  | ValidationError, ValidationError
  | EmailServiceError, EmailServiceError
  | TemplateNotFoundError, TemplateNotFoundError
  | EmailDeliveryError, EmailDeliveryError
  | TemplateNotFound, TemplateNotFound
  | PydanticValidationError, PydanticValidationError
  | ValueError, ValueError
  | TypeError, TypeError
  | AttributeError, AttributeError
  | OverflowError, OverflowError => true
  | OtherException a, OtherException b => String.eqb a b
  | _, _ => false
  end.

(** [isinstance(e, c)]: the class of [e] or one of its bases is [c]. *)
Definition isinstance (e : exn) (c : exn_class) : bool :=
  exn_class_eqb (exn_cls e) c
  || match base_class (exn_cls e) with
     | Some b =>
         exn_class_eqb b c
         || match base_class b with
            | Some b' => exn_class_eqb b' c
            | None => false
            end
     | None => false
     end.

(** The result of running Python code: a value or a raised exception. *)
Inductive pyres (A : Type) :=
| Returns (a : A)
| Raises (e : exn).
Arguments Returns {A} a.
Arguments Raises {A} e.

(** ** Numbers and dates *)

Module PyFloat.

(** [float(z)] for an [int]: round to nearest even; an [int] beyond the
    binary64 range raises [OverflowError]. *)
Definition of_int (z : Z) : pyres float :=
  let f := SF2Prim (binary_normalize prec emax z 0 false) in
  if PrimFloat.is_infinity f
  then Raises (mk_exn OverflowError "int too large to convert to float")
  else Returns f.

(** [n / d] rounded to the nearest integer, ties to even ([0 <= n], [0 < d]). *)
Definition div_half_even (n d : Z) : Z :=
  let q := n / d in
  let r := n mod d in
  if 2 * r <? d then q
  else if d <? 2 * r then q + 1
  else if Z.even q then q else q + 1.

Definition pad2 (z : Z) : string :=
  if z <? 10 then "0" +:+ str_of_Z z else str_of_Z z.

Definition sign_str (s : bool) : string := if s then "-" else "".

(** [f"{x:.2f}"]: the exact binary value of [x], correctly rounded to
    two decimals. *)
Definition format_2f (x : float) : string :=
  match Prim2SF x with
  | S754_nan => "nan"
  | S754_infinity s => sign_str s +:+ "inf"
  | S754_zero s => sign_str s +:+ "0.00"
  | S754_finite s m e =>
      let hundredths :=
        if 0 <=? e then Z.pos m * 2 ^ e * 100
        else div_half_even (Z.pos m * 100) (2 ^ (- e)) in
      sign_str s +:+ str_of_Z (hundredths / 100) +:+ "."
        +:+ pad2 (hundredths mod 100)
  end.

(** [sum(xs)] over floats: additions from left to right, as in the
    Python versions the package declares (3.8 to 3.10); the start value
    [0] is absorbed by the first addition. *)
Definition sum (xs : list float) : float :=
  fold_left PrimFloat.add xs PrimFloat.zero.

End PyFloat.

(** What the code reads of [datetime.now()]. *)
Record datetime := mk_datetime {
  dt_year : Z; dt_month : Z; dt_day : Z; dt_hour : Z; dt_minute : Z
}.

(** [dt.strftime("%d/%m/%Y %H:%M")] (four-digit years). *)
Definition strftime_dmY_HM (dt : datetime) : string :=
  PyFloat.pad2 (dt_day dt) +:+ "/" +:+ PyFloat.pad2 (dt_month dt) +:+ "/"
    +:+ str_of_Z (dt_year dt) +:+ " "
    +:+ PyFloat.pad2 (dt_hour dt) +:+ ":" +:+ PyFloat.pad2 (dt_minute dt).

(** ** Data models ([core/models.py]) *)

Record EmailAddress := mk_EmailAddress {
  email : string;
  name : option string
}.

(** [EmailAddress.__str__] *)
Definition EmailAddress_str (a : EmailAddress) : string :=
  match name a with
  | Some n => if str_truthy n then n +:+ " <" +:+ email a +:+ ">" else email a
  | None => email a
  end.

Record Company := mk_Company {
  company_name : string;
  address : string;
  support_email : EmailAddress;
  website : string;
  social_media : list (string * string);
  logo_url : option string
}.

Record Notification := mk_Notification {
  n_title : string;
  n_message : string;
  n_type : string;
  n_icon : option string;
  n_action_url : option string;
  n_action_text : option string;
  n_additional_info : option string
}.

Record Alert := mk_Alert {
  a_title : string;
  a_message : string;
  a_type : string;
  a_steps : option (list string);
  a_action_url : option string;
  a_action_text : option string;
  a_contact_support : bool
}.

Record OrderItem := mk_OrderItem {
  item_name : string;
  quantity : Z;
  price : float;
  sku : option string
}.

(** [OrderItem.total] *)
Definition item_total (it : OrderItem) : pyres float :=
  match PyFloat.of_int (quantity it) with
  | Returns q => Returns (PrimFloat.mul q (price it))
  | Raises e => Raises e
  end.

Record Order := mk_Order {
  number : string;
  items : list OrderItem;
  shipping_address : string;
  delivery_estimate : string
}.

(** The totals of the items, left to right, up to the first one that raises. *)
Fixpoint item_totals (its : list OrderItem) : pyres (list float) :=
  match its with
  | [] => Returns []
  | it :: rest =>
      match item_total it with
      | Raises e => Raises e
      | Returns t =>
          match item_totals rest with
          | Raises e => Raises e
          | Returns ts => Returns (t :: ts)
          end
      end
  end.

(** [Order.total] *)
Definition order_total (o : Order) : pyres float :=
  match item_totals (items o) with
  | Returns ts => Returns (PyFloat.sum ts)
  | Raises e => Raises e
  end.

(** [Order.items_count] *)
Definition items_count (o : Order) : Z :=
  fold_left (fun acc it => acc + quantity it) (items o) 0.

(** ** Content variants ([email_service/types]) *)

(** A constructed email object: the class is the constructor, the
    arguments are the instance attributes ([year] is set once, by
    [BaseEmail.__init__]). *)
Inductive BaseEmail :=
| WelcomeEmail (company : Company) (year : Z)
    (user : EmailAddress) (dashboard_url : string)
| PasswordResetEmail (company : Company) (year : Z)
    (user : EmailAddress) (reset_url : string) (expires_in : Z)
| NotificationEmail (company : Company) (year : Z)
    (user : EmailAddress) (notification : Notification) (preferences_url : string)
| AlertEmail (company : Company) (year : Z)
    (user : EmailAddress) (alert : Alert)
| OrderConfirmationEmail (company : Company) (year : Z)
    (customer : EmailAddress) (order : Order).

(** The class attribute [template_name]. *)
Definition template_name (e : BaseEmail) : string :=
  match e with
  | WelcomeEmail _ _ _ _ => "welcome.html"
  | PasswordResetEmail _ _ _ _ _ => "password_reset.html"
  | NotificationEmail _ _ _ _ _ => "notification.html"
  | AlertEmail _ _ _ _ => "alert.html"
  | OrderConfirmationEmail _ _ _ _ => "order_confirmation.html"
  end.

Definition validation_error (msg : string) : pyres unit :=
  Raises (mk_exn ValidationError msg).

(** [_validate_specific_data] of each subclass. *)
Definition _validate_specific_data (e : BaseEmail) : pyres unit :=
  match e with
  | WelcomeEmail _ _ _ dashboard_url =>
      if negb (str_truthy dashboard_url)
      then validation_error "dashboard_url es requerido para el email de bienvenida"
      else Returns tt
  | PasswordResetEmail _ _ _ reset_url expires_in =>
      if negb (str_truthy reset_url)
      then validation_error "reset_url es requerido para el email de restablecimiento"
      else if expires_in <=? 0
      then validation_error "expires_in debe ser un número positivo de horas"
      else Returns tt
  | NotificationEmail _ _ _ n _ =>
      if negb (str_truthy (n_title n)) || negb (str_truthy (n_message n))
      then validation_error "title y message son requeridos para el email de notificación"
      else Returns tt
  | AlertEmail _ _ _ a =>
      if negb (str_truthy (a_title a)) || negb (str_truthy (a_message a))
      then validation_error "title y message son requeridos para el email de alerta"
      else Returns tt
  | OrderConfirmationEmail _ _ _ o =>
      if negb (str_truthy (number o))
      then validation_error "El número de pedido es requerido"
      else if match items o with [] => true | _ => false end
              || (Z.of_nat (length (items o)) =? 0)
      then validation_error "El pedido debe tener al menos un ítem"
      else if negb (str_truthy (shipping_address o))
      then validation_error "La dirección de envío es requerida"
      else Returns tt
  end.

(** [BaseEmail.validate] *)
Definition validate (e : BaseEmail) : pyres unit :=
  if negb (str_truthy (template_name e))
  then validation_error "template_name es requerido"
  else _validate_specific_data e.

(** The data every variant starts from ([BaseEmail.get_template_data]). *)
Definition base_template_data (c : Company) (year : Z) : pydict :=
  [ ("company",
     PDict [ ("name", PStr (company_name c));
             ("address", PStr (address c));
             ("website", PStr (website c));
             ("support_email", PStr (EmailAddress_str (support_email c)));
             ("social_media",
              PDict (map (fun kv => (fst kv, PStr (snd kv))) (social_media c)));
             ("logo_url", opt_str (logo_url c)) ]);
    ("year", PInt year) ].

(** The ["user"] (or ["customer"]) entry of a variant. *)
Definition person_data (u : EmailAddress) (dflt : string) : pyval :=
  PDict [ ("name", PStr (str_or (name u) dflt)); ("email", PStr (email u)) ].

Definition notification_data (n : Notification) : pyval :=
  PDict [ ("title", PStr (n_title n));
          ("message", PStr (n_message n));
          ("type", PStr (n_type n));
          ("icon", opt_str (n_icon n));
          ("action_url", opt_str (n_action_url n));
          ("action_text", opt_str (n_action_text n));
          ("additional_info", opt_str (n_additional_info n)) ].

Definition alert_data (a : Alert) : pyval :=
  PDict [ ("title", PStr (a_title a));
          ("message", PStr (a_message a));
          ("type", PStr (a_type a));
          ("steps",
           match a_steps a with
           | Some l => PList (map PStr l)
           | None => PNone
           end);
          ("action_url", opt_str (a_action_url a));
          ("action_text", opt_str (a_action_text a));
          ("contact_support", PBool (a_contact_support a)) ].

(** The [products] list of an order confirmation, item by item. *)
Fixpoint order_products (its : list OrderItem) : pyres (list pyval) :=
  match its with
  | [] => Returns []
  | it :: rest =>
      match item_total it with
      | Raises e => Raises e
      | Returns t =>
          let product :=
            PDict [ ("name", PStr (item_name it));
                    ("sku", PStr (str_or (sku it) "N/A"));
                    ("quantity", PInt (quantity it));
                    ("price", PStr (PyFloat.format_2f (price it)));
                    ("total", PStr (PyFloat.format_2f t)) ] in
          match order_products rest with
          | Raises e => Raises e
          | Returns ps => Returns (product :: ps)
          end
      end
  end.

(** The ["order_info"] entry, given the products already formatted, the
    clock reading and the order total. *)
Definition order_info_data (o : Order) (products : list pyval)
    (now : datetime) (total : float) : pyval :=
  PDict [ ("number", PStr (number o));
          ("created_at", PStr (strftime_dmY_HM now));
          ("products", PList products);
          ("items_count", PInt (items_count o));
          ("total", PStr (PyFloat.format_2f total));
          ("shipping_address", PStr (shipping_address o));
          ("delivery_estimate", PStr (delivery_estimate o)) ].

(** ** The world outside the service *)

Inductive log_level := INFO | WARNING | ERROR.

(** The collaborators of the service: the clock, pydantic's address
    check, the file system, jinja2, premailer and the resend client.  All
    of them but the address check may depend on, and change, the world. *)
Record Externals := {
  World : Type;
  JinjaEnv : Type;
  Template : Type;
  datetime_now : World -> datetime * World;
  EmailStr_validate : string -> pyres string;
  Path_exists : string -> World -> bool;
  jinja_Environment : string -> World -> pyres JinjaEnv * World;
  get_template : JinjaEnv -> string -> World -> pyres Template * World;
  template_render : Template -> pydict -> World -> pyres string * World;
  premailer_transform : string -> World -> pyres string * World;
  resend_Emails_send : string -> pydict -> World -> pyres pydict * World
}.

(** The state a call runs in: the world, the records emitted on the
    module logger, and the module global [resend.api_key]. *)
Record St (ext : Externals) := mk_St {
  world : World ext;
  logs : list (log_level * string);
  resend_api_key : string
}.
Arguments mk_St {ext} _ _ _.
Arguments world {ext} _.
Arguments logs {ext} _.
Arguments resend_api_key {ext} _.

(** Computations that read and change the state and may raise. *)
Definition PyM (ext : Externals) (A : Type) : Type :=
  St ext -> pyres A * St ext.

Section Monad.
Context {ext : Externals}.

Definition ret {A} (a : A) : PyM ext A := fun s => (Returns a, s).

Definition raise {A} (e : exn) : PyM ext A := fun s => (Raises e, s).

Definition bind {A B} (m : PyM ext A) (k : A -> PyM ext B) : PyM ext B :=
  fun s =>
    match m s with
    | (Returns a, s') => k a s'
    | (Raises e, s') => (Raises e, s')
    end.

(** [try: body / except Exception as e: handler e] *)
Definition try_except {A} (body : PyM ext A) (handler : exn -> PyM ext A)
  : PyM ext A :=
  fun s =>
    match body s with
    | (Returns a, s') => (Returns a, s')
    | (Raises e, s') => handler e s'
    end.

(** A pure expression that may raise. *)
Definition lift {A} (r : pyres A) : PyM ext A := fun s => (r, s).

(** A call of a collaborator that acts on the world. *)
Definition call {A} (f : World ext -> pyres A * World ext) : PyM ext A :=
  fun s =>
    let (r, w) := f (world s) in
    (r, mk_St w (logs s) (resend_api_key s)).

(** [logger.<level>(msg)] *)
Definition log (lvl : log_level) (msg : string) : PyM ext unit :=
  fun s => (Returns tt, mk_St (world s) (logs s ++ [(lvl, msg)]) (resend_api_key s)).

(** [datetime.now()] *)
Definition now : PyM ext datetime :=
  fun s =>
    let (t, w) := datetime_now ext (world s) in
    (Returns t, mk_St w (logs s) (resend_api_key s)).

End Monad.

Notation "x <- m ;; k" := (bind m (fun x => k))
  (at level 100, m at next level, right associativity).
Notation "m ;;; k" := (bind m (fun _ => k))
  (at level 100, right associativity).

(** [for x in xs: acc = body x acc], with the loop-carried variables [acc]. *)
Fixpoint for_each {ext : Externals} {A S : Type}
    (xs : list A) (body : A -> S -> PyM ext S) (acc : S) : PyM ext S :=
  match xs with
  | [] => ret acc
  | x :: xs' => acc' <- body x acc ;; for_each xs' body acc'
  end.

(** ** Settings ([core/config.py]) *)

Record EmailSystemSettings := mk_settings {
  RESEND_API_KEY : string;
  DEFAULT_FROM_EMAIL : string;
  DEFAULT_FROM_NAME : string;
  TEMPLATES_DIR : string;
  TESTING : bool
}.

(** ** The service ([email_service/service.py]) *)

Record EmailService (ext : Externals) := mk_EmailService {
  api_key : string;
  default_from : EmailAddress;
  testing : bool;
  templates_dir : string;
  template_env : JinjaEnv ext
}.
Arguments mk_EmailService {ext} _ _ _ _ _.
Arguments api_key {ext} _.
Arguments default_from {ext} _.
Arguments testing {ext} _.
Arguments templates_dir {ext} _.
Arguments template_env {ext} _.

(** What a call of [send] hands back: one mapping, or one per recipient. *)
Inductive SendResult :=
| Single (d : pydict)
| Many (ds : list pydict).

(** The loop-carried variables of [send_batch]. *)
Record batch_acc := mk_acc {
  results : list pydict;
  errors : Z;
  successes : Z
}.

Definition service_error {ext A} (msg : string) : PyM ext A :=
  raise (mk_exn EmailServiceError msg).

Section Service.
Context {ext : Externals}.
Implicit Types (self : EmailService ext) (email_obj : BaseEmail).

(** Constructing an [EmailAddress]: pydantic checks (and normalises)
    the address. *)
Definition EmailAddress_new (addr : string) (nm : option string)
  : pyres EmailAddress :=
  match EmailStr_validate ext addr with
  | Returns a => Returns (mk_EmailAddress a nm)
  | Raises e => Raises e
  end.

(** [BaseEmail.__init__] reads the year once; the subclasses store
    their arguments. *)
Definition new_WelcomeEmail (c : Company) (u : EmailAddress) (url : string)
  : PyM ext BaseEmail :=
  t <- now ;; ret (WelcomeEmail c (dt_year t) u url).

Definition new_PasswordResetEmail (c : Company) (u : EmailAddress)
    (url : string) (expires_in : Z) : PyM ext BaseEmail :=
  t <- now ;; ret (PasswordResetEmail c (dt_year t) u url expires_in).

Definition new_NotificationEmail (c : Company) (u : EmailAddress)
    (n : Notification) (preferences_url : string) : PyM ext BaseEmail :=
  t <- now ;; ret (NotificationEmail c (dt_year t) u n preferences_url).

Definition new_AlertEmail (c : Company) (u : EmailAddress) (a : Alert)
  : PyM ext BaseEmail :=
  t <- now ;; ret (AlertEmail c (dt_year t) u a).

Definition new_OrderConfirmationEmail (c : Company) (u : EmailAddress)
    (o : Order) : PyM ext BaseEmail :=
  t <- now ;; ret (OrderConfirmationEmail c (dt_year t) u o).

(** [get_template_data] of each subclass. *)
Definition get_template_data email_obj : PyM ext pydict :=
  match email_obj with
  | WelcomeEmail c y u dashboard_url =>
      ret (Dict.update (base_template_data c y)
             [ ("user", person_data u "Usuario");
               ("dashboard_url", PStr dashboard_url) ])
  | PasswordResetEmail c y u reset_url expires_in =>
      ret (Dict.update (base_template_data c y)
             [ ("user", person_data u "Usuario");
               ("reset_url", PStr reset_url);
               ("expires_in", PInt expires_in) ])
  | NotificationEmail c y u n preferences_url =>
      ret (Dict.update (base_template_data c y)
             [ ("user", person_data u "Usuario");
               ("notification", notification_data n);
               ("preferences_url", PStr preferences_url) ])
  | AlertEmail c y u a =>
      ret (Dict.update (base_template_data c y)
             [ ("user", person_data u "Usuario");
               ("alert", alert_data a) ])
  | OrderConfirmationEmail c y cust o =>
      products <- lift (order_products (items o)) ;;
      t <- now ;;
      total <- lift (order_total o) ;;
      ret (Dict.update (base_template_data c y)
             [ ("customer", person_data cust "Cliente");
               ("order_info", order_info_data o products t total) ])
  end.

(** [Path.exists()] *)
Definition path_exists (p : string) : PyM ext bool :=
  fun s => (Returns (Path_exists ext p (world s)), s).

(** [settings.get_templates_dir()] *)
Definition get_templates_dir (settings : EmailSystemSettings) : PyM ext string :=
  found <- path_exists (TEMPLATES_DIR settings) ;;
  if negb found && negb (TESTING settings)
  then raise (mk_exn ValueError
                ("El directorio de templates no existe: " +:+ TEMPLATES_DIR settings))
  else ret (TEMPLATES_DIR settings).

(** [resend.api_key = key] *)
Definition set_resend_api_key (key : string) : PyM ext unit :=
  fun s => (Returns tt, mk_St (world s) (logs s) key).

(** [resend.Emails.send(params)] *)
Definition resend_send (params : pydict) : PyM ext pydict :=
  fun s =>
    let (r, w) := resend_Emails_send ext (resend_api_key s) params (world s) in
    (r, mk_St w (logs s) (resend_api_key s)).

(** [EmailService.__init__].  A directory is held as the text its path
    prints as: [templates_dir], when given, stands for
    [Path(templates_dir)], which the source stores and prints, and not for
    the text the path was made from. *)
Definition EmailService_init (settings : EmailSystemSettings)
    (api_key : option string) (default_from : option EmailAddress)
    (templates_dir : option string) (testing : bool)
  : PyM ext (EmailService ext) :=
  let self_api_key := str_or api_key (RESEND_API_KEY settings) in
  if negb (str_truthy self_api_key) && negb testing
  then service_error "API key no configurada para el servicio de email"
  else
    set_resend_api_key self_api_key ;;;
    self_default_from <-
      match default_from with
      | None =>
          lift (EmailAddress_new (DEFAULT_FROM_EMAIL settings)
                  (Some (DEFAULT_FROM_NAME settings)))
      | Some a => ret a
      end ;;
    let self_testing := testing || TESTING settings in
    self_templates_dir <-
      match templates_dir with
      | None =>
          try_except (get_templates_dir settings)
            (fun e =>
               if isinstance e ValueError
               then service_error
                      ("Error al obtener el directorio de plantillas: " +:+ exn_msg e)
               else raise e)
      | Some d =>
          found <- path_exists d ;;
          if negb found && negb self_testing
          then service_error ("El directorio de templates no existe: " +:+ d)
          else ret d
      end ;;
    env <-
      try_except
        (env <- call (jinja_Environment ext self_templates_dir) ;;
         log INFO ("Motor de plantillas configurado con el directorio: "
                   +:+ self_templates_dir) ;;;
         ret env)
        (fun e =>
           service_error ("Error al configurar el motor de plantillas: " +:+ exn_msg e)) ;;
    ret (mk_EmailService self_api_key self_default_from self_testing
           self_templates_dir env).

(** [EmailService._render_with_inline_styles] *)
Definition _render_with_inline_styles self (template_name : string)
    (context : pydict) : PyM ext string :=
  template <-
    try_except (call (get_template ext (template_env self) template_name))
      (fun e =>
         if isinstance e TemplateNotFound
         then raise (mk_exn TemplateNotFoundError
                       ("Plantilla no encontrada: " +:+ template_name))
         else service_error ("Error al cargar la plantilla " +:+ template_name
                             +:+ ": " +:+ exn_msg e)) ;;
  html <-
    try_except (call (template_render ext template context))
      (fun e =>
         service_error ("Error al renderizar la plantilla " +:+ template_name
                        +:+ ": " +:+ exn_msg e)) ;;
  try_except (call (premailer_transform ext html))
    (fun e =>
       log WARNING ("Error al convertir estilos a inline: " +:+ exn_msg e) ;;;
       ret html).

Definition addr_list (l : list EmailAddress) : pyval :=
  PList (map (fun a => PStr (EmailAddress_str a)) l).

(** A list argument that is present and not empty ([if cc:]). *)
Definition list_truthy {A} (o : option (list A)) : bool :=
  match o with
  | Some (_ :: _) => true
  | _ => false
  end.

(** [EmailService._prepare_email_params] *)
Definition _prepare_email_params (from_email : EmailAddress)
    (to : list EmailAddress) (subject html_content : string)
    (cc bcc : option (list EmailAddress)) : pydict :=
  let params :=
    [ ("from", PStr (EmailAddress_str from_email));
      ("to", addr_list to);
      ("subject", PStr subject);
      ("html", PStr html_content) ] in
  let params :=
    if list_truthy cc then Dict.set "cc" (addr_list (default [] cc)) params
    else params in
  let params :=
    if list_truthy bcc then Dict.set "bcc" (addr_list (default [] bcc)) params
    else params in
  params.

(** The record a failed recipient leaves in the results. *)
Definition error_record (msg addr : string) : pydict :=
  [ ("error", PStr msg); ("email", PStr addr) ].

End Service.

Section Dispatch.
Context {ext : Externals}.
Implicit Types (self : EmailService ext) (email_obj : BaseEmail).

(** [recipient.name or user.get('name', 'Usuario')]: the right operand
    is only evaluated when the recipient has no name. *)
Definition name_or_user_name (recipient : EmailAddress) (user : pyval)
  : PyM ext pyval :=
  if opt_truthy (name recipient)
  then ret (PStr (default "" (name recipient)))
  else
    match user with
    | PDict u => ret (Dict.get_default "name" (PStr "Usuario") u)
    | _ => raise (mk_exn AttributeError "object has no attribute 'get'")
    end.

(** The template data of one recipient in a personalized [send]. *)
Definition personalize_data (recipient : EmailAddress) (template_data : pydict)
  : PyM ext pydict :=
  match Dict.get "user" template_data with
  | Some user =>
      nm <- name_or_user_name recipient user ;;
      ret (Dict.set "user"
             (PDict [ ("name", nm); ("email", PStr (email recipient)) ])
             template_data)
  | None => ret template_data
  end.

(** One turn of the loop of a personalized [send].  Every append is the
    last effect of its branch, so the handler finds [results] as the
    turn started. *)
Definition send_personalized_step self email_obj (from_email : EmailAddress)
    (subject : string) (recipient : EmailAddress) (results : list pydict)
  : PyM ext (list pydict) :=
  try_except
    (template_data <- get_template_data email_obj ;;
     template_data <- personalize_data recipient template_data ;;
     html_content <-
       _render_with_inline_styles self (template_name email_obj) template_data ;;
     let params :=
       _prepare_email_params from_email [recipient] subject html_content
         None None in
     if testing self
     then ret (results ++ [params])
     else
       log INFO ("Enviando email personalizado a " +:+ email recipient) ;;;
       result <- resend_send params ;;
       ret (results ++ [result]))
    (fun e =>
       log ERROR ("Error al enviar email personalizado a " +:+ email recipient
                  +:+ ": " +:+ exn_msg e) ;;;
       ret (results ++ [error_record (exn_msg e) (email recipient)])).

(** The body of the non-personalized branch of [send]. *)
Definition send_plain self email_obj (from_email : EmailAddress)
    (to : list EmailAddress) (subject : string)
    (cc bcc : option (list EmailAddress)) : PyM ext pydict :=
  template_data <- get_template_data email_obj ;;
  html_content <-
    _render_with_inline_styles self (template_name email_obj) template_data ;;
  let params :=
    _prepare_email_params from_email to subject html_content cc bcc in
  if testing self
  then ret params
  else
    log INFO ("Enviando email a " +:+ str_of_Z (Z.of_nat (length to))
              +:+ " destinatario(s)") ;;;
    resend_send params.

(** [EmailService.send] *)
Definition send self email_obj (to : EmailAddress + list EmailAddress)
    (subject : string) (from_email : option EmailAddress)
    (cc bcc : option (list EmailAddress)) (personalize : bool)
  : PyM ext SendResult :=
  try_except (lift (validate email_obj))
    (fun e =>
       service_error ("Error al validar los datos del email: " +:+ exn_msg e)) ;;;
  let from_email := default (default_from self) from_email in
  let to := match to with inl a => [a] | inr l => l end in
  if negb personalize
  then
    try_except
      (d <- send_plain self email_obj from_email to subject cc bcc ;;
       ret (Single d))
      (fun e =>
         log ERROR ("Error al enviar email: " +:+ exn_msg e) ;;;
         service_error ("Error al enviar email: " +:+ exn_msg e))
  else
    results <-
      for_each to (send_personalized_step self email_obj from_email subject) [] ;;
    ret (Many results).

(** [dict(v)] for the ["user"] entry. *)
Definition dict_copy (v : pyval) : PyM ext pydict :=
  match v with
  | PDict d => ret d
  | _ => raise (mk_exn TypeError "object is not a mapping")
  end.

(** The template data of one recipient in [send_batch]. *)
Definition batch_personalize_data (recipient : EmailAddress)
    (template_data : pydict) : PyM ext pydict :=
  match Dict.get "user" template_data with
  | Some user =>
      user_data <- dict_copy user ;;
      nm <- name_or_user_name recipient (PDict user_data) ;;
      let user_data := Dict.set "name" nm user_data in
      let user_data := Dict.set "email" (PStr (email recipient)) user_data in
      ret (Dict.set "user" (PDict user_data) template_data)
  | None => ret template_data
  end.

(** One turn of the loop of [send_batch]; [continue] is the turn that
    hands the loop-carried variables back unchanged. *)
Definition send_batch_step self email_obj (from_email : EmailAddress)
    (subject : string) (recipient_data : gmap string string) (acc : batch_acc)
  : PyM ext batch_acc :=
  try_except
    (match recipient_data !! "email" with
     | None =>
         log WARNING "Saltando destinatario sin email" ;;;
         ret acc
     | Some addr =>
         recipient <-
           lift (EmailAddress_new (ext:=ext) addr
                   (Some (default "" (recipient_data !! "name")))) ;;
         template_data <- get_template_data email_obj ;;
         template_data <- batch_personalize_data recipient template_data ;;
         html_content <-
           _render_with_inline_styles self (template_name email_obj)
             template_data ;;
         let params :=
           _prepare_email_params from_email [recipient] subject html_content
             None None in
         if testing self
         then ret (mk_acc (results acc ++ [params]) (errors acc)
                     (successes acc + 1))
         else
           try_except
             (log INFO ("Enviando email en lote a " +:+ email recipient) ;;;
              result <- resend_send params ;;
              ret (mk_acc (results acc ++ [result]) (errors acc)
                     (successes acc + 1)))
             (fun e =>
                log ERROR ("Error enviando a " +:+ email recipient +:+ ": "
                           +:+ exn_msg e) ;;;
                ret (mk_acc
                       (results acc
                          ++ [error_record (exn_msg e) (email recipient)])
                       (errors acc + 1) (successes acc)))
     end)
    (fun e =>
       log ERROR ("Error al procesar destinatario: " +:+ exn_msg e) ;;;
       ret (mk_acc (results acc ++ [[("error", PStr (exn_msg e))]])
              (errors acc + 1) (successes acc))).

(** [EmailService.send_batch] *)
Definition send_batch self email_obj (recipients : list (gmap string string))
    (subject : string) (from_email : option EmailAddress)
  : PyM ext (list pydict) :=
  try_except (lift (validate email_obj))
    (fun e =>
       service_error ("Error al validar los datos del email: " +:+ exn_msg e)) ;;;
  let from_email := default (default_from self) from_email in
  match recipients with
  | [] => service_error "No se proporcionaron destinatarios"
  | _ :: _ =>
      acc <-
        for_each recipients (send_batch_step self email_obj from_email subject)
          (mk_acc [] 0 0) ;;
      log INFO ("Envío en lote completado: " +:+ str_of_Z (successes acc)
                +:+ " exitosos, " +:+ str_of_Z (errors acc) +:+ " errores") ;;;
      ret (results acc)
  end.

End Dispatch.

(** ** Address checks ([email_service/utils/validation.py]) *)

(** Regular expressions as [re] reads them on the characters of the
    pattern used here: character classes, concatenation, alternation and
    repetition, matched by derivatives. *)
Module Re.

Inductive regex :=
| Never
| Eps
| Class (p : ascii -> bool)
| Cat (r1 r2 : regex)
| Alt (r1 r2 : regex)
| Star (r : regex).

(** [r+] *)
Definition Plus (r : regex) : regex := Cat r (Star r).

(** [r{2,}] *)
Definition AtLeast2 (r : regex) : regex := Cat r (Cat r (Star r)).

Fixpoint nullable (r : regex) : bool :=
  match r with
  | Never => false
  | Eps => true
  | Class _ => false
  | Cat r1 r2 => nullable r1 && nullable r2
  | Alt r1 r2 => nullable r1 || nullable r2
  | Star _ => true
  end.

Fixpoint deriv (c : ascii) (r : regex) : regex :=
  match r with
  | Never => Never
  | Eps => Never
  | Class p => if p c then Eps else Never
  | Cat r1 r2 =>
      if nullable r1
      then Alt (Cat (deriv c r1) r2) (deriv c r2)
      else Cat (deriv c r1) r2
  | Alt r1 r2 => Alt (deriv c r1) (deriv c r2)
  | Star r' => Cat (deriv c r') (Star r')
  end.

(** The whole of [s] is matched by [r]. *)
Fixpoint fullmatch (r : regex) (s : string) : bool :=
  match s with
  | EmptyString => nullable r
  | String c s' => fullmatch (deriv c r) s'
  end.

Definition newline : ascii := ascii_of_nat 10.

(** [re.compile("^" r "$").match(s)] is not [None]: without [MULTILINE],
    [$] holds at the end of the string and just before a newline that
    ends it. *)
Definition match_anchored (r : regex) (s : string) : bool :=
  fullmatch (Cat r (Alt Eps (Class (Ascii.eqb newline)))) s.

(** The strings a regular expression denotes. *)
Inductive lang : regex -> string -> Prop :=
| lang_eps : lang Eps ""
| lang_class p c : p c = true -> lang (Class p) (String c "")
| lang_cat r1 r2 s1 s2 :
    lang r1 s1 -> lang r2 s2 -> lang (Cat r1 r2) (s1 +:+ s2)
| lang_alt_l r1 r2 s : lang r1 s -> lang (Alt r1 r2) s
| lang_alt_r r1 r2 s : lang r2 s -> lang (Alt r1 r2) s
| lang_star_nil r : lang (Star r) ""
| lang_star_cons r s1 s2 :
    lang r s1 -> lang (Star r) s2 -> lang (Star r) (s1 +:+ s2).

(** Every character of [s] is in the class [p]. *)
Fixpoint all_chars (p : ascii -> bool) (s : string) : bool :=
  match s with
  | EmptyString => true
  | String c s' => p c && all_chars p s'
  end.

End Re.

Definition in_range (lo hi : nat) (c : ascii) : bool :=
  (lo <=? nat_of_ascii c)%nat && (nat_of_ascii c <=? hi)%nat.

(** [a-zA-Z] *)
Definition is_alpha (c : ascii) : bool := in_range 97 122 c || in_range 65 90 c.

(** [0-9] *)
Definition is_digit (c : ascii) : bool := in_range 48 57 c.

Definition one_of (chars : string) (c : ascii) : bool :=
  existsb (Ascii.eqb c) (list_ascii_of_string chars).

(** [[a-zA-Z0-9._%+-]] *)
Definition is_local_char (c : ascii) : bool :=
  is_alpha c || is_digit c || one_of "._%+-" c.

(** [[a-zA-Z0-9.-]] *)
Definition is_domain_char (c : ascii) : bool :=
  is_alpha c || is_digit c || one_of ".-" c.

(** [EMAIL_PATTERN], between its anchors:
    [[a-zA-Z0-9._%+-]+@[a-zA-Z0-9.-]+\.[a-zA-Z]{2,}] *)
Definition EMAIL_PATTERN : Re.regex :=
  Re.Cat (Re.Plus (Re.Class is_local_char))
    (Re.Cat (Re.Class (Ascii.eqb "@"))
       (Re.Cat (Re.Plus (Re.Class is_domain_char))
          (Re.Cat (Re.Class (Ascii.eqb "."))
             (Re.AtLeast2 (Re.Class is_alpha))))).

(** [validate_email], on a [str]. *)
Definition validate_email (addr : string) : bool :=
  if negb (str_truthy addr) then false
  else Re.match_anchored EMAIL_PATTERN addr.

(** [validate_emails]: the valid and the invalid addresses, and the
    warnings emitted on the way, appended to the log. *)
Fixpoint validate_emails_loop (emails valid_emails invalid_emails : list string)
    (warnings : list (log_level * string))
  : list string * list string * list (log_level * string) :=
  match emails with
  | [] => (valid_emails, invalid_emails, warnings)
  | addr :: rest =>
      if validate_email addr
      then validate_emails_loop rest (valid_emails ++ [addr]) invalid_emails warnings
      else validate_emails_loop rest valid_emails (invalid_emails ++ [addr])
             (warnings ++ [(WARNING, "Email inválido: " +:+ addr)])
  end.

Definition validate_emails (emails : list string)
    (warnings : list (log_level * string))
  : list string * list string * list (log_level * string) :=
  validate_emails_loop emails [] [] warnings.

(** ** Wiring of the API ([api/dependencies.py]) *)

(** What a dependency hands to a route: a value, or the [HTTPException]
    it raised. *)
Inductive http_result (A : Type) :=
| HttpOk (a : A)
| HTTPException (status_code : Z) (detail : string).
Arguments HttpOk {A} a.
Arguments HTTPException {A} status_code detail.

Section Wiring.
Context {ext : Externals}.

(** [get_email_service]: the arguments of the constructor are evaluated
    in order, then the service is constructed; whatever is raised on the
    way comes out as an [HTTPException] with status 500. *)
Definition get_email_service (settings : EmailSystemSettings)
  : PyM ext (http_result (EmailService ext)) :=
  try_except
    (let api_key := RESEND_API_KEY settings in
     if negb (str_truthy api_key)
     then raise (mk_exn ValueError "RESEND_API_KEY no configurada")
     else
       default_from <-
         lift (EmailAddress_new (ext:=ext) (DEFAULT_FROM_EMAIL settings)
                 (Some (DEFAULT_FROM_NAME settings))) ;;
       dir <- get_templates_dir settings ;;
       service <-
         EmailService_init settings (Some api_key) (Some default_from) (Some dir)
           (TESTING settings) ;;
       ret (HttpOk service))
    (fun e =>
       log ERROR ("Error al crear el servicio de email: " +:+ exn_msg e) ;;;
       ret (HTTPException 500
              ("Error al configurar el servicio de email: " +:+ exn_msg e))).

End Wiring.

(** ** Swapping the delivery provider *)

(** The same collaborators with another delivery provider. *)
Definition with_provider (ext : Externals)
    (provider : string -> pydict -> World ext -> pyres pydict * World ext)
  : Externals :=
  {| World := World ext;
     JinjaEnv := JinjaEnv ext;
     Template := Template ext;
     datetime_now := datetime_now ext;
     EmailStr_validate := EmailStr_validate ext;
     Path_exists := Path_exists ext;
     jinja_Environment := jinja_Environment ext;
     get_template := get_template ext;
     template_render := template_render ext;
     premailer_transform := premailer_transform ext;
     resend_Emails_send := provider |}.

Section Swap.
Context {ext : Externals}.
Variable provider : string -> pydict -> World ext -> pyres pydict * World ext.

(** A state, a service and the outcome of a run, read over the swapped
    collaborators. *)
Definition swap_state (s : St ext) : St (with_provider ext provider) :=
  mk_St (ext:=with_provider ext provider) (world s) (logs s) (resend_api_key s).

Definition swap_service (self : EmailService ext)
  : EmailService (with_provider ext provider) :=
  mk_EmailService (ext:=with_provider ext provider) (api_key self)
    (default_from self) (testing self) (templates_dir self) (template_env self).

Definition swap_run {A} (r : pyres A * St ext)
  : pyres A * St (with_provider ext provider) :=
  (fst r, swap_state (snd r)).

End Swap.

(** ** Concrete collaborators

    Stand-ins for the collaborators, used to run the service on concrete
    inputs: a clock that advances one minute per reading, an address check
    that asks for an [@], a template engine that knows every template but
    the listed ones, an inliner that works or always fails, and a provider
    that rejects the listed recipients. *)
Module Stub.

Fixpoint has_at (s : string) : bool :=
  match s with
  | EmptyString => false
  | String c s' => if Ascii.eqb c "@"%char then true else has_at s'
  end.

Definition check_address (a : string) : pyres string :=
  if has_at a then Returns a
  else Raises (mk_exn PydanticValidationError
                 "value is not a valid email address").

Definition clock (w : Z) : datetime * Z :=
  (mk_datetime 2026 11 4 ((w / 60) mod 24) (w mod 60), w + 1).

Definition load (missing : list string) (env nm : string) (w : Z)
  : pyres string * Z :=
  if existsb (String.eqb nm) missing
  then (Raises (mk_exn TemplateNotFound nm), w)
  else (Returns nm, w).

(** The rendered page names the template and greets the user. *)
Definition render (t : string) (context : pydict) (w : Z) : pyres string * Z :=
  match Dict.get "user" context with
  | Some (PDict u) =>
      match Dict.get "name" u with
      | Some (PStr n) => (Returns ("<p class=g>" +:+ t +:+ ": " +:+ n +:+ "</p>"), w)
      | _ => (Raises (mk_exn (OtherException "jinja2.UndefinedError")
                        "'name' is undefined"), w)
      end
  | _ => (Returns ("<p class=g>" +:+ t +:+ "</p>"), w)
  end.

Definition inline (works : bool) (html : string) (w : Z) : pyres string * Z :=
  if works then (Returns ("<style-inlined>" +:+ html), w)
  else (Raises (mk_exn (OtherException "lxml.etree.ParserError")
                  "Document is empty"), w).

Definition deliver (rejected : list string) (key : string) (params : pydict)
    (w : Z) : pyres pydict * Z :=
  match Dict.get "to" params with
  | Some (PList [PStr a]) =>
      if existsb (String.eqb a) rejected
      then (Raises (mk_exn (OtherException "resend.exceptions.ResendError")
                      ("rejected: " +:+ a)), w)
      else (Returns [("id", PStr ("msg-" +:+ a))], w)
  | _ =>
      match rejected with
      | [] => (Returns [("id", PStr "msg")], w)
      | _ => (Raises (mk_exn (OtherException "resend.exceptions.ResendError")
                        "rejected"), w)
      end
  end.

Definition externals (missing : list string) (inliner_works : bool)
    (rejected : list string) : Externals :=
  {| World := Z;
     JinjaEnv := string;
     Template := string;
     datetime_now := clock;
     EmailStr_validate := check_address;
     Path_exists := fun p _ => String.eqb p "templates";
     jinja_Environment := fun p w => (Returns p, w);
     get_template := load missing;
     template_render := render;
     premailer_transform := inline inliner_works;
     resend_Emails_send := deliver rejected |}.

(** Everything works. *)
Definition healthy : Externals := externals [] true [].
(** The inliner raises on every page. *)
Definition inliner_down : Externals := externals [] false [].
(** The welcome template is not in the templates directory. *)
Definition no_welcome_template : Externals := externals ["welcome.html"] true [].
(** The provider rejects mail to bob. *)
Definition bob_rejected : Externals := externals [] true ["bob@x.test"].

Definition start {ext : Externals} (w : World ext) : St ext := mk_St w [] "".

Definition acme : Company :=
  mk_Company "Acme" "1 Main St" (mk_EmailAddress "help@acme.test" None)
    "https://acme.test" [] None.

Definition ann : EmailAddress := mk_EmailAddress "ann@x.test" (Some "Ann").
Definition bob : EmailAddress := mk_EmailAddress "bob@x.test" None.
Definition eve : EmailAddress := mk_EmailAddress "eve@x.test" (Some "Eve").
Definition ann_unnamed : EmailAddress := mk_EmailAddress "ann@x.test" None.
Definition sender : EmailAddress := mk_EmailAddress "no-reply@acme.test" (Some "Acme").

Definition welcome : BaseEmail :=
  WelcomeEmail acme 2026 ann "https://acme.test/d".

Definition welcome_no_url : BaseEmail := WelcomeEmail acme 2026 ann "".

Definition order_mail : BaseEmail :=
  OrderConfirmationEmail acme 2026 ann
    (mk_Order "A-17" [mk_OrderItem "Pen" 3 0.5%float None] "2 Side St" "3 days").

(** A service over the given collaborators, as the constructor builds it. *)
Definition service (ext : Externals) (env : JinjaEnv ext) (testing : bool)
  : EmailService ext :=
  mk_EmailService "re_key" sender testing "templates" env.

End Stub.

(** * Notions used by the properties *)

(** The required fields of each variant, as the specification lists them:
    a dashboard URL; a reset URL and a positive number of hours; a title
    and a message; an order number, at least one line item and a shipping
    address. *)
Definition required_fields_present (e : BaseEmail) : Prop :=
  match e with
  | WelcomeEmail _ _ _ dashboard_url => dashboard_url <> ""
  | PasswordResetEmail _ _ _ reset_url expires_in =>
      reset_url <> "" /\ 0 < expires_in
  | NotificationEmail _ _ _ n _ => n_title n <> "" /\ n_message n <> ""
  | AlertEmail _ _ _ a => a_title a <> "" /\ a_message a <> ""
  | OrderConfirmationEmail _ _ _ o =>
      number o <> "" /\ (1 <= length (items o))%nat /\ shipping_address o <> ""
  end.

Section Notions.
Context {ext : Externals}.
Implicit Types (self : EmailService ext) (s : St ext) (e : BaseEmail).

(** The state after a collaborator moved the world to [w]. *)
Definition with_world s (w : World ext) : St ext :=
  mk_St w (logs s) (resend_api_key s).

(** The state after one more log record. *)
Definition logged (lvl : log_level) (msg : string) s : St ext :=
  mk_St (world s) (logs s ++ [(lvl, msg)]) (resend_api_key s).

(** The pre-flight check shared by [send] and [send_batch]. *)
Definition preflight e : PyM ext unit :=
  try_except (lift (validate e))
    (fun err =>
       service_error ("Error al validar los datos del email: " +:+ exn_msg err)).

(** The unit of work of one recipient of a personalized [send]: build
    the recipient's data, render and inline, then deliver (or, in
    testing mode, hand the parameters back). *)
Definition recipient_work self e (from_email : EmailAddress) (subject : string)
    (recipient : EmailAddress) : PyM ext pydict :=
  template_data <- get_template_data e ;;
  template_data <- personalize_data recipient template_data ;;
  html_content <- _render_with_inline_styles self (template_name e) template_data ;;
  let params :=
    _prepare_email_params from_email [recipient] subject html_content None None in
  if testing self then ret params
  else
    log INFO ("Enviando email personalizado a " +:+ email recipient) ;;;
    resend_send params.

(** The outcomes of a list of recipients, each worked on in the state
    its predecessor left: the value its unit of work returns, or, when
    that raises, the error record of this recipient (and one [ERROR]
    record in the log); the next recipient is worked on either way. *)
Inductive isolated_outcomes self e (from_email : EmailAddress) (subject : string)
  : list EmailAddress -> St ext -> list pydict -> St ext -> Prop :=
| outcomes_done s :
    isolated_outcomes self e from_email subject [] s [] s
| outcomes_delivered recipient rest s d s1 ds s2 :
    recipient_work self e from_email subject recipient s = (Returns d, s1) ->
    isolated_outcomes self e from_email subject rest s1 ds s2 ->
    isolated_outcomes self e from_email subject (recipient :: rest) s (d :: ds) s2
| outcomes_failed recipient rest s err s1 ds s2 :
    recipient_work self e from_email subject recipient s = (Raises err, s1) ->
    isolated_outcomes self e from_email subject rest
      (logged ERROR ("Error al enviar email personalizado a " +:+ email recipient
                     +:+ ": " +:+ exn_msg err) s1) ds s2 ->
    isolated_outcomes self e from_email subject (recipient :: rest) s
      (error_record (exn_msg err) (email recipient) :: ds) s2.

(** What the slot of one recipient holds: the error record of that
    recipient, or a value its unit of work returned. *)
Definition slot_of self e (from_email : EmailAddress) (subject : string)
    (recipient : EmailAddress) (d : pydict) : Prop :=
  (exists msg, d = error_record msg (email recipient))
  \/ (exists s0 s1,
        recipient_work self e from_email subject recipient s0 = (Returns d, s1)).

(** The recipients of a [send]: a bare address is wrapped in a list. *)
Definition recipients_of (to : EmailAddress + list EmailAddress)
  : list EmailAddress :=
  match to with inl a => [a] | inr l => l end.

(** [ 'email' in recipient_data ] *)
Definition has_email_key (recipient_data : gmap string string) : bool :=
  match recipient_data !! "email" with
  | Some _ => true
  | None => false
  end.

(** The variants whose [get_template_data] reads the clock. *)
Definition reads_clock e : bool :=
  match e with
  | OrderConfirmationEmail _ _ _ _ => true
  | _ => false
  end.

(** A computation whose result does not depend on the state it runs in. *)
Definition stateless {A} (m : PyM ext A) : Prop :=
  forall s s', fst (m s) = fst (m s').

(** The template engine and the inliner answer by their arguments alone
    ("rendering is deterministic and pure given identical inputs"). *)
Definition stateless_rendering : Prop :=
  (forall env n w w',
      fst (get_template ext env n w) = fst (get_template ext env n w'))
  /\ (forall t d w w',
        fst (template_render ext t d w) = fst (template_render ext t d w'))
  /\ (forall h w w',
        fst (premailer_transform ext h w) = fst (premailer_transform ext h w')).

End Notions.
Arguments stateless_rendering : clear implicits.
Arguments stateless ext {A} m.

Section BatchNotions.
Context {ext : Externals}.
Implicit Types (self : EmailService ext) (s : St ext) (e : BaseEmail).

(** What [send_batch] does for an entry with an address before it
    delivers: construct the recipient, build the recipient's data, render
    and inline, prepare the parameters. *)
Definition batch_prepare self e (from_email : EmailAddress) (subject : string)
    (addr nm : string) : PyM ext (EmailAddress * pydict) :=
  recipient <- lift (EmailAddress_new (ext:=ext) addr (Some nm)) ;;
  template_data <- get_template_data e ;;
  template_data <- batch_personalize_data recipient template_data ;;
  html_content <- _render_with_inline_styles self (template_name e) template_data ;;
  ret (recipient,
       _prepare_email_params from_email [recipient] subject html_content None None).

(** The outcomes of the entries of a batch, each worked on in the state
    its predecessor left: nothing for an entry without the [email] key;
    the record of the error message alone when the preparation raises;
    the parameters in testing mode; otherwise what the provider returns,
    or the record of its error and of the recipient's address. *)
Inductive batch_outcomes self e (from_email : EmailAddress) (subject : string)
  : list (gmap string string) -> St ext -> list pydict -> St ext -> Prop :=
| batch_done s :
    batch_outcomes self e from_email subject [] s [] s
| batch_skipped rd rest s ds s2 :
    rd !! "email" = None ->
    batch_outcomes self e from_email subject rest
      (logged WARNING "Saltando destinatario sin email" s) ds s2 ->
    batch_outcomes self e from_email subject (rd :: rest) s ds s2
| batch_not_prepared rd rest s addr err s1 ds s2 :
    rd !! "email" = Some addr ->
    batch_prepare self e from_email subject addr (default "" (rd !! "name")) s
    = (Raises err, s1) ->
    batch_outcomes self e from_email subject rest
      (logged ERROR ("Error al procesar destinatario: " +:+ exn_msg err) s1) ds s2 ->
    batch_outcomes self e from_email subject (rd :: rest) s
      ([("error", PStr (exn_msg err))] :: ds) s2
| batch_tested rd rest s addr recipient params s1 ds s2 :
    rd !! "email" = Some addr ->
    batch_prepare self e from_email subject addr (default "" (rd !! "name")) s
    = (Returns (recipient, params), s1) ->
    testing self = true ->
    batch_outcomes self e from_email subject rest s1 ds s2 ->
    batch_outcomes self e from_email subject (rd :: rest) s (params :: ds) s2
| batch_delivered rd rest s addr recipient params s1 receipt s1' ds s2 :
    rd !! "email" = Some addr ->
    batch_prepare self e from_email subject addr (default "" (rd !! "name")) s
    = (Returns (recipient, params), s1) ->
    testing self = false ->
    resend_send params
      (logged INFO ("Enviando email en lote a " +:+ email recipient) s1)
    = (Returns receipt, s1') ->
    batch_outcomes self e from_email subject rest s1' ds s2 ->
    batch_outcomes self e from_email subject (rd :: rest) s (receipt :: ds) s2
| batch_rejected rd rest s addr recipient params s1 err s1' ds s2 :
    rd !! "email" = Some addr ->
    batch_prepare self e from_email subject addr (default "" (rd !! "name")) s
    = (Returns (recipient, params), s1) ->
    testing self = false ->
    resend_send params
      (logged INFO ("Enviando email en lote a " +:+ email recipient) s1)
    = (Raises err, s1') ->
    batch_outcomes self e from_email subject rest
      (logged ERROR ("Error enviando a " +:+ email recipient +:+ ": "
                     +:+ exn_msg err) s1') ds s2 ->
    batch_outcomes self e from_email subject (rd :: rest) s
      (error_record (exn_msg err) (email recipient) :: ds) s2.

(** The name a recipient is addressed by: the recipient's own, or the one
    the template data has, or ["Usuario"]. *)
Definition addressed_name (recipient : EmailAddress) (user : pydict) : pyval :=
  if opt_truthy (name recipient)
  then PStr (default "" (name recipient))
  else Dict.get_default "name" (PStr "Usuario") user.

(** A computation that runs alike over the collaborators with another
    delivery provider. *)
Definition provider_free
    (provider : string -> pydict -> World ext -> pyres pydict * World ext)
    {A} (m : PyM ext A) (m' : PyM (with_provider ext provider) A) : Prop :=
  forall s, m' (swap_state provider s) = swap_run provider (m s).

End BatchNotions.

(** The number of occurrences of a character in a string. *)
Fixpoint count_char (c : ascii) (s : string) : nat :=
  match s with
  | EmptyString => 0%nat
  | String c' s' => ((if Ascii.eqb c c' then 1 else 0) + count_char c s')%nat
  end.

(** The company, the year and the addressee a variant was constructed with. *)
Definition company_of (e : BaseEmail) : Company :=
  match e with
  | WelcomeEmail c _ _ _ | PasswordResetEmail c _ _ _ _
  | NotificationEmail c _ _ _ _ | AlertEmail c _ _ _
  | OrderConfirmationEmail c _ _ _ => c
  end.

Definition year_of (e : BaseEmail) : Z :=
  match e with
  | WelcomeEmail _ y _ _ | PasswordResetEmail _ y _ _ _
  | NotificationEmail _ y _ _ _ | AlertEmail _ y _ _
  | OrderConfirmationEmail _ y _ _ => y
  end.

Definition addressee_of (e : BaseEmail) : EmailAddress :=
  match e with
  | WelcomeEmail _ _ u _ | PasswordResetEmail _ _ u _ _
  | NotificationEmail _ _ u _ _ | AlertEmail _ _ u _
  | OrderConfirmationEmail _ _ u _ => u
  end.

(** What [get_email_service] leaves when an exception whose message is
    [cause] was raised in the state [s0]: the [HTTPException] with status
    500 and the [ERROR] record, both quoting [cause]. *)
Definition dependency_failure {ext : Externals} (cause : string) (s0 : St ext)
  : pyres (http_result (EmailService ext)) * St ext :=
  (Returns (HTTPException 500
              ("Error al configurar el servicio de email: " +:+ cause)),
   logged ERROR ("Error al crear el servicio de email: " +:+ cause) s0).

(** * Properties *)

(** ** Validation of the content variants *)

Lemma str_truthy_true s : str_truthy s = true <-> s <> "".
Proof.
  unfold str_truthy. destruct (String.eqb_spec s ""); simpl; split; congruence.
Qed.


Lemma template_name_nonempty e : str_truthy (template_name e) = true.
Proof. destruct e; reflexivity. Qed.

Lemma validate_specific e : validate e = _validate_specific_data e.
Proof. unfold validate. now rewrite template_name_nonempty. Qed.

(** Whatever [validate] raises is a [ValidationError]. *)
Lemma validate_raises_ValidationError e err :
  validate e = Raises err -> exn_cls err = ValidationError.
Proof.
  rewrite validate_specific. unfold _validate_specific_data, validation_error.
  destruct e; repeat (match goal with
                      | |- context [if ?b then _ else _] => destruct b
                      end; simpl); intros [= <-]; reflexivity.
Qed.

Lemma validate_accepts e : required_fields_present e -> validate e = Returns tt.
Proof.
  rewrite validate_specific.
  destruct e as [c y u d | c y u r x | c y u n p | c y u a | c y u o]; simpl.
  - intros H%str_truthy_true. now rewrite H.
  - intros [H%str_truthy_true Hx]. rewrite H. simpl.
    destruct (Z.leb_spec x 0); [lia | reflexivity].
  - intros [H1%str_truthy_true H2%str_truthy_true]. now rewrite H1, H2.
  - intros [H1%str_truthy_true H2%str_truthy_true]. now rewrite H1, H2.
  - intros (H1%str_truthy_true & Hl & H2%str_truthy_true). rewrite H1, H2. simpl.
    destruct (items o); simpl in *; [lia | reflexivity].
Qed.

Lemma validate_rejects e :
  ~ required_fields_present e ->
  exists msg, validate e = Raises (mk_exn ValidationError msg).
Proof.
  rewrite validate_specific. unfold validation_error.
  destruct e as [c y u d | c y u r x | c y u n p | c y u a | c y u o]; simpl.
  - intros H. destruct (str_truthy d) eqn:E; simpl; [| eauto].
    apply str_truthy_true in E. contradiction.
  - intros H. destruct (str_truthy r) eqn:E; simpl; [| eauto].
    destruct (Z.leb_spec x 0); [eauto |].
    apply str_truthy_true in E. tauto.
  - intros H. destruct (str_truthy (n_title n)) eqn:E1; simpl; [| eauto].
    destruct (str_truthy (n_message n)) eqn:E2; simpl; [| eauto].
    apply str_truthy_true in E1, E2. tauto.
  - intros H. destruct (str_truthy (a_title a)) eqn:E1; simpl; [| eauto].
    destruct (str_truthy (a_message a)) eqn:E2; simpl; [| eauto].
    apply str_truthy_true in E1, E2. tauto.
  - intros H. destruct (str_truthy (number o)) eqn:E1; simpl; [| eauto].
    destruct (items o) as [| it its] eqn:Ei; simpl; [eauto |].
    destruct (str_truthy (shipping_address o)) eqn:E2; simpl; [| eauto].
    apply str_truthy_true in E1, E2. exfalso. apply H. simpl. repeat split; auto; lia.
Qed.

Lemma required_fields_dec e : required_fields_present e \/ ~ required_fields_present e.
Proof.
  destruct (validate e) as [[] | err] eqn:E.
  - destruct e as [c y u d | c y u r x | c y u n p | c y u a | c y u o];
      rewrite validate_specific in E; simpl in E; unfold validation_error in E.
    + left. destruct (str_truthy d) eqn:T; [now apply str_truthy_true | discriminate].
    + left. destruct (str_truthy r) eqn:T; [| discriminate]. simpl in E.
      destruct (Z.leb_spec x 0); [discriminate |].
      split; [now apply str_truthy_true | lia].
    + left. destruct (str_truthy (n_title n)) eqn:T1; [| discriminate].
      destruct (str_truthy (n_message n)) eqn:T2; [| discriminate].
      split; now apply str_truthy_true.
    + left. destruct (str_truthy (a_title a)) eqn:T1; [| discriminate].
      destruct (str_truthy (a_message a)) eqn:T2; [| discriminate].
      split; now apply str_truthy_true.
    + left. destruct (str_truthy (number o)) eqn:T1; [| discriminate]. simpl in E.
      destruct (items o) as [| it its] eqn:Ei; [discriminate |]. simpl in E.
      destruct (str_truthy (shipping_address o)) eqn:T2; [| discriminate].
      simpl. rewrite Ei. simpl.
      repeat split; try (now apply str_truthy_true); lia.
  - right. intros H. apply validate_accepts in H. congruence.
Qed.

(** C6. [validate] raises [ValidationError] exactly when a required field
    of the variant is missing or invalid, and returns normally exactly
    when all of them are present: a welcome email needs a dashboard URL, a
    password reset a reset URL and a positive [expires_in], a notification
    and an alert a title and a message, an order confirmation a number, an
    item and a shipping address. *)
Theorem validate_iff_required_fields (e : BaseEmail) :
  (validate e = Returns tt <-> required_fields_present e)
  /\ ((exists msg, validate e = Raises (mk_exn ValidationError msg))
      <-> ~ required_fields_present e).
Proof.
  split; split.
  - intros Hv. destruct (required_fields_dec e) as [H | H]; [exact H |].
    apply validate_rejects in H as [msg H]. congruence.
  - apply validate_accepts.
  - intros [msg Hv] H. apply validate_accepts in H. congruence.
  - apply validate_rejects.
Qed.

(** The rejections the specification names. *)
Example validate_rejects_named_cases c y u n a :
  (exists m, validate (WelcomeEmail c y u "") = Raises (mk_exn ValidationError m))
  /\ (exists m, validate (PasswordResetEmail c y u "https://x/r" 0)
                = Raises (mk_exn ValidationError m))
  /\ (exists m, validate (PasswordResetEmail c y u "" 24)
                = Raises (mk_exn ValidationError m))
  /\ (exists m, validate (NotificationEmail c y u
                            (mk_Notification "" "m" "info" None None None None) n)
                = Raises (mk_exn ValidationError m))
  /\ (exists m, validate (AlertEmail c y u
                            (mk_Alert "t" "" "info" None None None a))
                = Raises (mk_exn ValidationError m)).
Proof. repeat split; eexists; reflexivity. Qed.

(** ** Rendering with inlined styles *)

Section RenderProperties.
Context {ext : Externals}.
Implicit Types (self : EmailService ext) (s : St ext).

Lemma call_eq {A} (f : World ext -> pyres A * World ext) s r w :
  f (world s) = (r, w) -> call f s = (r, with_world s w).
Proof. intros H. unfold call. now rewrite H. Qed.

(** Once the template is loaded and rendered, the call returns an HTML
    string whatever the inliner does. *)
Lemma render_returns_after_rendering self tname context s t w1 html w2 :
  get_template ext (template_env self) tname (world s) = (Returns t, w1) ->
  template_render ext t context w1 = (Returns html, w2) ->
  exists out s', _render_with_inline_styles self tname context s = (Returns out, s').
Proof.
  intros Hload Hrender.
  unfold _render_with_inline_styles, bind, try_except.
  rewrite (call_eq _ _ _ _ Hload).
  rewrite (call_eq _ (with_world s w1) _ _ Hrender).
  destruct (call (premailer_transform ext html) _) as [[out | e] s3]; eauto.
Qed.

(** C7. When the template was loaded and rendered to [html] and the
    inliner fails on it, [_render_with_inline_styles] returns exactly
    [html], having logged one warning; and in any case, once [html] is
    rendered, the call returns normally: no exception of the inliner
    reaches the caller. *)
Theorem inline_failure_returns_rendered_html
    self tname context s t w1 html w2 :
  get_template ext (template_env self) tname (world s) = (Returns t, w1) ->
  template_render ext t context w1 = (Returns html, w2) ->
  (forall e w3,
      premailer_transform ext html w2 = (Raises e, w3) ->
      _render_with_inline_styles self tname context s
      = (Returns html,
         logged WARNING ("Error al convertir estilos a inline: " +:+ exn_msg e)
           (with_world s w3)))
  /\ (forall e s',
        _render_with_inline_styles self tname context s <> (Raises e, s')).
Proof.
  intros Hload Hrender. split.
  - intros e w3 Hinline.
    unfold _render_with_inline_styles, bind, try_except.
    rewrite (call_eq _ _ _ _ Hload).
    rewrite (call_eq _ (with_world s w1) _ _ Hrender).
    rewrite (call_eq _ (with_world (with_world s w1) w2) _ _ Hinline).
    reflexivity.
  - intros e s' Habs.
    destruct (render_returns_after_rendering self tname context s t w1 html w2
                Hload Hrender) as (out & s'' & Hout).
    congruence.
Qed.

End RenderProperties.

(** With an inliner that always fails, the welcome page comes back as
    rendered. *)
Lemma inline_failure_returns_rendered_html_witness :
  _render_with_inline_styles (Stub.service Stub.inliner_down "templates" true)
    "welcome.html" [("user", PDict [("name", PStr "Ann")])]
    (Stub.start (ext:=Stub.inliner_down) 0)
  = (Returns "<p class=g>welcome.html: Ann</p>",
     mk_St (ext:=Stub.inliner_down) 0
       [(WARNING, "Error al convertir estilos a inline: Document is empty")] "").
Proof.
  exact (proj1 (inline_failure_returns_rendered_html (ext:=Stub.inliner_down)
                  (Stub.service Stub.inliner_down "templates" true) "welcome.html"
                  [("user", PDict [("name", PStr "Ann")])]
                  (Stub.start (ext:=Stub.inliner_down) 0)
                  "welcome.html" 0 "<p class=g>welcome.html: Ann</p>" 0
                  eq_refl eq_refl)
           (mk_exn (OtherException "lxml.etree.ParserError") "Document is empty")
           0 eq_refl).
Defined.

(** ** Dispatch *)

Section DispatchProperties.
Context {ext : Externals}.
Implicit Types (self : EmailService ext) (s : St ext) (e : BaseEmail).

Lemma bind_returns {A B} (m : PyM ext A) (k : A -> PyM ext B) s a s' :
  m s = (Returns a, s') -> bind m k s = k a s'.
Proof. intros H. unfold bind. now rewrite H. Qed.

Lemma bind_raises {A B} (m : PyM ext A) (k : A -> PyM ext B) s err s' :
  m s = (Raises err, s') -> bind m k s = (Raises err, s').
Proof. intros H. unfold bind. now rewrite H. Qed.

Lemma preflight_ok e s : validate e = Returns tt -> preflight e s = (Returns tt, s).
Proof. intros H. unfold preflight, try_except, lift. now rewrite H. Qed.

Lemma preflight_fails e s err :
  validate e = Raises err ->
  preflight e s
  = (Raises (mk_exn EmailServiceError
               ("Error al validar los datos del email: " +:+ exn_msg err)), s).
Proof. intros H. unfold preflight, try_except, lift. now rewrite H. Qed.

(** The error the caller of [send] or [send_batch] sees for a variant
    that [validate] rejects (C5, as the code has it): an
    [EmailServiceError] that quotes the message of the
    [ValidationError]; the state is the one the call started in, so no
    collaborator was called, nothing was logged and no recipient was
    attempted. *)
Theorem invalid_variant_aborts_before_any_work
    self e to recipients subject from_email cc bcc personalize s err :
  validate e = Raises err ->
  exn_cls err = ValidationError
  /\ send self e to subject from_email cc bcc personalize s
     = (Raises (mk_exn EmailServiceError
                  ("Error al validar los datos del email: " +:+ exn_msg err)), s)
  /\ send_batch self e recipients subject from_email s
     = (Raises (mk_exn EmailServiceError
                  ("Error al validar los datos del email: " +:+ exn_msg err)), s).
Proof.
  intros H. split; [now apply validate_raises_ValidationError in H |].
  split.
  - unfold send. fold (preflight (ext:=ext) e). apply bind_raises. now apply preflight_fails.
  - unfold send_batch. fold (preflight (ext:=ext) e). apply bind_raises. now apply preflight_fails.
Qed.

(** C10. For a variant that validates, [send_batch] with no recipients
    raises [EmailServiceError] ("No se proporcionaron destinatarios")
    instead of returning an empty list; the state is untouched, so this
    happens before any per-recipient work. *)
Theorem send_batch_without_recipients_raises self e subject from_email s :
  validate e = Returns tt ->
  send_batch self e [] subject from_email s
  = (Raises (mk_exn EmailServiceError "No se proporcionaron destinatarios"), s).
Proof.
  intros H. unfold send_batch. fold (preflight (ext:=ext) e).
  now rewrite (bind_returns _ _ _ _ _ (preflight_ok e s H)).
Qed.

(** *** Personalized sends *)

Lemma send_personalized_step_eq self e from_email subject recipient results s :
  send_personalized_step self e from_email subject recipient results s
  = match recipient_work self e from_email subject recipient s with
    | (Returns d, s1) => (Returns (results ++ [d]), s1)
    | (Raises err, s1) =>
        (Returns (results ++ [error_record (exn_msg err) (email recipient)]),
         logged ERROR ("Error al enviar email personalizado a " +:+ email recipient
                       +:+ ": " +:+ exn_msg err) s1)
    end.
Proof.
  unfold send_personalized_step, recipient_work, try_except, bind.
  destruct (get_template_data e s) as [[td | err] s1]; [| reflexivity].
  destruct (personalize_data recipient td s1) as [[td' | err] s2]; [| reflexivity].
  destruct (_render_with_inline_styles self (template_name e) td' s2)
    as [[html | err] s3]; [| reflexivity].
  destruct (testing self); [reflexivity |].
  unfold log. simpl.
  destruct (resend_send _ _) as [[r | err] s4]; reflexivity.
Qed.

Lemma personalized_loop self e from_email subject to :
  forall acc s,
  exists out s',
    for_each to (send_personalized_step self e from_email subject) acc s
    = (Returns (acc ++ out), s')
    /\ length out = length to
    /\ isolated_outcomes self e from_email subject to s out s'.
Proof.
  induction to as [| recipient rest IH]; intros acc s.
  - exists [], s. simpl. unfold ret. rewrite app_nil_r.
    repeat split. constructor.
  - simpl. unfold bind at 1. rewrite send_personalized_step_eq.
    destruct (recipient_work self e from_email subject recipient s)
      as [[d | err] s1] eqn:Hwork.
    + destruct (IH (acc ++ [d]) s1) as (out & s' & Hrun & Hlen & Hout).
      exists (d :: out), s'. rewrite Hrun, <- app_assoc. simpl.
      repeat split; [now rewrite Hlen |].
      eapply outcomes_delivered; eauto.
    + destruct (IH (acc ++ [error_record (exn_msg err) (email recipient)])
                  (logged ERROR ("Error al enviar email personalizado a "
                                 +:+ email recipient +:+ ": " +:+ exn_msg err) s1))
        as (out & s' & Hrun & Hlen & Hout).
      exists (error_record (exn_msg err) (email recipient) :: out), s'.
      rewrite Hrun, <- app_assoc. simpl.
      repeat split; [now rewrite Hlen |].
      eapply outcomes_failed; eauto.
Qed.

Lemma isolated_outcomes_slots self e from_email subject to s outcomes s' :
  isolated_outcomes self e from_email subject to s outcomes s' ->
  Forall2 (slot_of self e from_email subject) to outcomes.
Proof.
  induction 1; constructor; auto.
  - right. eauto.
  - left. eauto.
Qed.

(** C1, as the code has it.  For a variant that validates, a
    personalized [send] returns a list with exactly one outcome per
    recipient, in the order of the recipients: what the recipient's unit
    of work returned, or, when rendering or delivery (any step of the
    unit of work) raised for that recipient, the record of the error
    message and that recipient's address.  The loop goes on after a
    failure, and the call itself returns normally. *)
Theorem personalized_send_isolates_failures
    self e to subject from_email cc bcc s :
  validate e = Returns tt ->
  exists outcomes s',
    send self e to subject from_email cc bcc true s = (Returns (Many outcomes), s')
    /\ length outcomes = length (recipients_of to)
    /\ isolated_outcomes self e (default (default_from self) from_email) subject
         (recipients_of to) s outcomes s'
    /\ Forall2 (slot_of self e (default (default_from self) from_email) subject)
         (recipients_of to) outcomes.
Proof.
  intros Hv. unfold send. fold (preflight (ext:=ext) e).
  rewrite (bind_returns _ _ _ _ _ (preflight_ok e s Hv)). simpl.
  destruct (personalized_loop self e (default (default_from self) from_email)
              subject (recipients_of to) [] s) as (out & s' & Hrun & Hlen & Hout).
  exists out, s'. unfold recipients_of in *.
  rewrite (bind_returns _ _ _ _ _ Hrun).
  repeat split; auto. eapply isolated_outcomes_slots; eauto.
Qed.

End DispatchProperties.

Section PlainSendProperties.
Context {ext : Externals}.
Implicit Types (self : EmailService ext) (s : St ext) (e : BaseEmail).

(** A template that cannot be loaded, or that fails to render, makes
    [_render_with_inline_styles] raise a service error. *)
Lemma load_failure_raises self tname context s err w1 :
  get_template ext (template_env self) tname (world s) = (Raises err, w1) ->
  exists err',
    _render_with_inline_styles self tname context s = (Raises err', with_world s w1)
    /\ isinstance err' EmailServiceError = true.
Proof.
  intros H. unfold _render_with_inline_styles.
  unfold bind at 1. unfold try_except at 1. rewrite (call_eq _ _ _ _ H).
  destruct (isinstance err TemplateNotFound); eexists; split; reflexivity.
Qed.

Lemma render_failure_raises self tname context s t w1 err w2 :
  get_template ext (template_env self) tname (world s) = (Returns t, w1) ->
  template_render ext t context w1 = (Raises err, w2) ->
  _render_with_inline_styles self tname context s
  = (Raises (mk_exn EmailServiceError
               ("Error al renderizar la plantilla " +:+ tname +:+ ": "
                +:+ exn_msg err)),
     with_world (with_world s w1) w2).
Proof.
  intros Hload Hrender. unfold _render_with_inline_styles, bind, try_except.
  rewrite (call_eq _ _ _ _ Hload).
  now rewrite (call_eq _ (with_world s w1) _ _ Hrender).
Qed.

(** C2, as the code has it.  For a variant that validates, a
    non-personalized [send] in which rendering raises, or in which
    (outside testing mode) the provider call raises, raises one
    [EmailServiceError] that quotes the message of the cause, after one
    [ERROR] record in the log; it returns no result. *)
Theorem plain_send_failure_is_fatal
    self e to subject from_email cc bcc s data s1 err s2 :
  validate e = Returns tt ->
  get_template_data e s = (Returns data, s1) ->
  (_render_with_inline_styles self (template_name e) data s1 = (Raises err, s2)
   \/ exists html s1',
       _render_with_inline_styles self (template_name e) data s1
       = (Returns html, s1')
       /\ testing self = false
       /\ resend_send
            (_prepare_email_params (default (default_from self) from_email)
               (recipients_of to) subject html cc bcc)
            (logged INFO ("Enviando email a "
                          +:+ str_of_Z (Z.of_nat (length (recipients_of to)))
                          +:+ " destinatario(s)") s1')
          = (Raises err, s2)) ->
  send self e to subject from_email cc bcc false s
  = (Raises (mk_exn EmailServiceError ("Error al enviar email: " +:+ exn_msg err)),
     logged ERROR ("Error al enviar email: " +:+ exn_msg err) s2).
Proof.
  intros Hv Hdata Hfail. unfold send. fold (preflight (ext:=ext) e).
  rewrite (bind_returns _ _ _ _ _ (preflight_ok e s Hv)). simpl.
  fold (recipients_of to).
  unfold try_except, send_plain.
  unfold bind at 1. unfold bind at 1. rewrite Hdata.
  destruct Hfail as [Hrender | (html & s1' & Hrender & Htest & Hsend)].
  - rewrite (bind_raises _ _ _ _ _ Hrender). reflexivity.
  - rewrite (bind_returns _ _ _ _ _ Hrender). rewrite Htest.
    unfold bind at 1. unfold log at 1. fold (logged INFO ("Enviando email a "
                          +:+ str_of_Z (Z.of_nat (length (recipients_of to)))
                          +:+ " destinatario(s)") s1').
    rewrite Hsend. reflexivity.
Qed.

End PlainSendProperties.

Section BatchProperties.
Context {ext : Externals}.
Implicit Types (self : EmailService ext) (s : St ext) (e : BaseEmail).

(** One turn of the batch loop never raises.  An entry without the key
    leaves the loop-carried variables as they were and logs one warning;
    an entry with the key appends exactly one outcome and adds one to
    exactly one of the two counters. *)
Lemma send_batch_step_outcome self e from_email subject recipient_data acc s :
  exists acc' s',
    send_batch_step self e from_email subject recipient_data acc s
    = (Returns acc', s')
    /\ if has_email_key recipient_data
       then (exists d, results acc' = results acc ++ [d])
            /\ successes acc' + errors acc' = successes acc + errors acc + 1
       else acc' = acc
            /\ s' = logged WARNING "Saltando destinatario sin email" s.
Proof.
  unfold send_batch_step, has_email_key, try_except.
  destruct (recipient_data !! "email") as [addr |].
  2:{ exists acc, (logged WARNING "Saltando destinatario sin email" s).
      split; [reflexivity | auto]. }
  unfold bind at 1. unfold lift at 1.
  destruct (EmailAddress_new addr _) as [recipient | err];
    [| unfold bind, log, ret; simpl; do 2 eexists; split;
       [reflexivity | simpl; split; [eauto | lia]]].
  unfold bind at 1.
  destruct (get_template_data e s) as [[td | err] s1];
    [| unfold bind, log, ret; simpl; do 2 eexists; split;
       [reflexivity | simpl; split; [eauto | lia]]].
  unfold bind at 1.
  destruct (batch_personalize_data recipient td s1) as [[td' | err] s2];
    [| unfold bind, log, ret; simpl; do 2 eexists; split;
       [reflexivity | simpl; split; [eauto | lia]]].
  unfold bind at 1.
  destruct (_render_with_inline_styles self (template_name e) td' s2)
    as [[html | err] s3];
    [| unfold bind, log, ret; simpl; do 2 eexists; split;
       [reflexivity | simpl; split; [eauto | lia]]].
  destruct (testing self).
  - unfold ret. do 2 eexists. split; [reflexivity |]. simpl. split; [eauto | lia].
  - unfold try_except, bind, log. simpl.
    destruct (resend_send _ _) as [[r | err] s4]; unfold ret; simpl;
      do 2 eexists; (split; [reflexivity |]); simpl; (split; [eauto | lia]).
Qed.

Lemma batch_loop self e from_email subject recipients :
  forall acc s,
  exists acc' s' out,
    for_each recipients (send_batch_step self e from_email subject) acc s
    = (Returns acc', s')
    /\ results acc' = results acc ++ out
    /\ length out = length (List.filter has_email_key recipients)
    /\ successes acc' + errors acc'
       = successes acc + errors acc + Z.of_nat (length out).
Proof.
  induction recipients as [| rd rest IH]; intros acc s.
  - exists acc, s, []. simpl. rewrite app_nil_r. repeat split. lia.
  - destruct (send_batch_step_outcome self e from_email subject rd acc s)
      as (acc1 & s1 & Hstep & Hcase).
    destruct (IH acc1 s1) as (acc' & s' & out & Hrun & Hres & Hlen & Hcount).
    simpl. rewrite (bind_returns _ _ _ _ _ Hstep), Hrun.
    destruct (has_email_key rd).
    + destruct Hcase as [[d Hd] Hc].
      exists acc', s', (d :: out). split; [reflexivity |].
      rewrite Hres, Hd, <- app_assoc. simpl.
      repeat split; [now rewrite Hlen | lia].
    + destruct Hcase as [-> ->].
      exists acc', s', out. auto.
Qed.

Lemma send_batch_step_eq self e from_email subject rd acc s :
  send_batch_step self e from_email subject rd acc s
  = match rd !! "email" with
    | None => (Returns acc, logged WARNING "Saltando destinatario sin email" s)
    | Some addr =>
        match batch_prepare self e from_email subject addr
                (default "" (rd !! "name")) s with
        | (Raises err, s1) =>
            (Returns (mk_acc (results acc ++ [[("error", PStr (exn_msg err))]])
                        (errors acc + 1) (successes acc)),
             logged ERROR ("Error al procesar destinatario: " +:+ exn_msg err) s1)
        | (Returns (recipient, params), s1) =>
            if testing self
            then (Returns (mk_acc (results acc ++ [params]) (errors acc)
                             (successes acc + 1)), s1)
            else
              match resend_send params
                      (logged INFO ("Enviando email en lote a " +:+ email recipient)
                         s1) with
              | (Returns receipt, s2) =>
                  (Returns (mk_acc (results acc ++ [receipt]) (errors acc)
                              (successes acc + 1)), s2)
              | (Raises err, s2) =>
                  (Returns (mk_acc
                              (results acc
                                 ++ [error_record (exn_msg err) (email recipient)])
                              (errors acc + 1) (successes acc)),
                   logged ERROR ("Error enviando a " +:+ email recipient +:+ ": "
                                 +:+ exn_msg err) s2)
              end
        end
    end.
Proof.
  unfold send_batch_step, batch_prepare, try_except.
  destruct (rd !! "email") as [addr |]; [| reflexivity].
  unfold bind, lift.
  destruct (EmailAddress_new addr _) as [recipient | err]; [| reflexivity].
  destruct (get_template_data e s) as [[td | err] s1]; [| reflexivity].
  destruct (batch_personalize_data recipient td s1) as [[td' | err] s2];
    [| reflexivity].
  destruct (_render_with_inline_styles self (template_name e) td' s2)
    as [[html | err] s3]; [| reflexivity].
  unfold ret.
  destruct (testing self); [reflexivity |].
  unfold log. simpl.
  destruct (resend_send _ _) as [[r | err] s4]; reflexivity.
Qed.

Lemma batch_loop_outcomes self e from_email subject recipients :
  forall acc s,
  exists acc' s' out,
    for_each recipients (send_batch_step self e from_email subject) acc s
    = (Returns acc', s')
    /\ results acc' = results acc ++ out
    /\ batch_outcomes self e from_email subject recipients s out s'.
Proof.
  induction recipients as [| rd rest IH]; intros acc s.
  - exists acc, s, []. simpl. rewrite app_nil_r. repeat split. constructor.
  - simpl. unfold bind at 1. rewrite send_batch_step_eq.
    destruct (rd !! "email") as [addr |] eqn:Haddr.
    2:{ destruct (IH acc (logged WARNING "Saltando destinatario sin email" s))
          as (acc' & s' & out & Hrun & Hres & Hout).
        exists acc', s', out. repeat split; auto.
        now apply batch_skipped. }
    destruct (batch_prepare self e from_email subject addr _ s)
      as [[[recipient params] | err] s1] eqn:Hprep.
    + destruct (testing self) eqn:Htest.
      * destruct (IH (mk_acc (results acc ++ [params]) (errors acc)
                        (successes acc + 1)) s1)
          as (acc' & s' & out & Hrun & Hres & Hout).
        exists acc', s', (params :: out). split; [exact Hrun |].
        simpl in Hres. rewrite Hres, <- app_assoc. split; [reflexivity |].
        eapply batch_tested; eauto.
      * destruct (resend_send params _) as [[receipt | err] s2] eqn:Hsend.
        -- destruct (IH (mk_acc (results acc ++ [receipt]) (errors acc)
                           (successes acc + 1)) s2)
             as (acc' & s' & out & Hrun & Hres & Hout).
           exists acc', s', (receipt :: out). split; [exact Hrun |].
           simpl in Hres. rewrite Hres, <- app_assoc. split; [reflexivity |].
           eapply batch_delivered; eauto.
        -- destruct (IH (mk_acc
                           (results acc
                              ++ [error_record (exn_msg err) (email recipient)])
                           (errors acc + 1) (successes acc))
                        (logged ERROR ("Error enviando a " +:+ email recipient
                                       +:+ ": " +:+ exn_msg err) s2))
             as (acc' & s' & out & Hrun & Hres & Hout).
           exists acc', s', (error_record (exn_msg err) (email recipient) :: out).
           split; [exact Hrun |].
           simpl in Hres. rewrite Hres, <- app_assoc. split; [reflexivity |].
           eapply batch_rejected; eauto.
    + destruct (IH (mk_acc (results acc ++ [[("error", PStr (exn_msg err))]])
                      (errors acc + 1) (successes acc))
                   (logged ERROR ("Error al procesar destinatario: "
                                  +:+ exn_msg err) s1))
        as (acc' & s' & out & Hrun & Hres & Hout).
      exists acc', s', ([("error", PStr (exn_msg err))] :: out).
      split; [exact Hrun |].
      simpl in Hres. rewrite Hres, <- app_assoc. split; [reflexivity |].
      eapply batch_not_prepared; eauto.
Qed.

Lemma batch_outcomes_length self e from_email subject recipients s outcomes s' :
  batch_outcomes self e from_email subject recipients s outcomes s' ->
  length outcomes = length (List.filter has_email_key recipients).
Proof.
  unfold has_email_key.
  induction 1 as [| rd rest s ds s2 Hkey _ IH | rd rest s addr err s1 ds s2 Hkey _ _ IH
                  | rd rest s addr r params s1 ds s2 Hkey _ _ _ IH
                  | rd rest s addr r params s1 receipt s1' ds s2 Hkey _ _ _ _ IH
                  | rd rest s addr r params s1 err s1' ds s2 Hkey _ _ _ _ IH];
    simpl; try rewrite Hkey; simpl; congruence.
Qed.

Lemma batch_outcomes_all_skipped self e from_email subject recipients s outcomes s' :
  batch_outcomes self e from_email subject recipients s outcomes s' ->
  Forall (fun rd => has_email_key rd = false) recipients ->
  outcomes = []
  /\ world s' = world s
  /\ logs s'
     = logs s
         ++ repeat (WARNING, "Saltando destinatario sin email") (length recipients).
Proof.
  unfold has_email_key.
  induction 1 as [| rd rest s ds s2 Hkey _ IH | rd rest s addr err s1 ds s2 Hkey
                  | rd rest s addr r params s1 ds s2 Hkey
                  | rd rest s addr r params s1 receipt s1' ds s2 Hkey
                  | rd rest s addr r params s1 err s1' ds s2 Hkey];
    intros Hall.
  - simpl. now rewrite app_nil_r.
  - inversion Hall as [| ? ? _ Hrest]; subst.
    destruct (IH Hrest) as (-> & Hw & Hl). simpl in Hw, Hl.
    repeat split; [exact Hw |]. rewrite Hl, <- app_assoc. reflexivity.
  - inversion Hall as [| ? ? Hrd _]; subst. rewrite Hkey in Hrd. discriminate.
  - inversion Hall as [| ? ? Hrd _]; subst. rewrite Hkey in Hrd. discriminate.
  - inversion Hall as [| ? ? Hrd _]; subst. rewrite Hkey in Hrd. discriminate.
  - inversion Hall as [| ? ? Hrd _]; subst. rewrite Hkey in Hrd. discriminate.
Qed.

(** C3, as the code has it.  For a variant that validates and a
    non-empty list, [send_batch] returns one outcome for each entry that
    has the [email] key and none for the others: an entry without the key
    is skipped with one warning ("Saltando destinatario sin email") in
    the log, at its place among the records of the other entries, and is
    neither present in the result nor counted, so one such entry among N
    leaves N-1 outcomes when all the others have the key.  The two
    counters reported in the closing log record add up to the number of
    outcomes. *)
Theorem send_batch_skips_entries_without_email
    self e recipients subject from_email s :
  validate e = Returns tt ->
  recipients <> [] ->
  exists outcomes n_ok n_err s1,
    send_batch self e recipients subject from_email s
    = (Returns outcomes,
       logged INFO ("Envío en lote completado: " +:+ str_of_Z n_ok
                    +:+ " exitosos, " +:+ str_of_Z n_err +:+ " errores") s1)
    /\ length outcomes = length (List.filter has_email_key recipients)
    /\ n_ok + n_err = Z.of_nat (length outcomes)
    /\ batch_outcomes self e (default (default_from self) from_email) subject
         recipients s outcomes s1
    /\ (Forall (fun rd => has_email_key rd = false) recipients ->
        outcomes = []
        /\ world s1 = world s
        /\ logs s1
           = logs s
               ++ repeat (WARNING, "Saltando destinatario sin email")
                    (length recipients)).
Proof.
  intros Hv Hne. unfold send_batch. fold (preflight (ext:=ext) e).
  rewrite (bind_returns _ _ _ _ _ (preflight_ok e s Hv)).
  destruct recipients as [| rd rest]; [congruence |].
  destruct (batch_loop self e (default (default_from self) from_email) subject
              (rd :: rest) (mk_acc [] 0 0) s)
    as (acc' & s' & out & Hrun & Hres & Hlen & Hcount).
  destruct (batch_loop_outcomes self e (default (default_from self) from_email)
              subject (rd :: rest) (mk_acc [] 0 0) s)
    as (acc'' & s'' & out' & Hrun' & Hres' & Hout).
  rewrite Hrun in Hrun'. injection Hrun' as <- <-.
  simpl in Hres, Hres'. subst out. subst out'.
  exists (results acc'), (successes acc'), (errors acc'), s'.
  rewrite (bind_returns _ _ _ _ _ Hrun).
  split; [reflexivity |]. split; [exact Hlen |].
  split; [simpl in Hcount; lia |]. split; [exact Hout |].
  intros Hall. eapply batch_outcomes_all_skipped; eauto.
Qed.

End BatchProperties.

(** ** Repeating a call *)

Section Repeatability.
Context {ext : Externals}.
Implicit Types (self : EmailService ext) (s : St ext) (e : BaseEmail).

Lemma stateless_ret {A} (a : A) : stateless ext (ret a).
Proof. intros s s'. reflexivity. Qed.

Lemma stateless_raise {A} (err : exn) : stateless ext (raise (A:=A) err).
Proof. intros s s'. reflexivity. Qed.

Lemma stateless_lift {A} (r : pyres A) : stateless ext (lift r).
Proof. intros s s'. reflexivity. Qed.

Lemma stateless_log lvl msg : stateless ext (log lvl msg).
Proof. intros s s'. reflexivity. Qed.

Lemma stateless_call {A} (f : World ext -> pyres A * World ext) :
  (forall w w', fst (f w) = fst (f w')) -> stateless ext (call f).
Proof.
  intros H s s'. unfold call. specialize (H (world s) (world s')).
  destruct (f (world s)), (f (world s')). exact H.
Qed.

Lemma stateless_bind {A B} (m : PyM ext A) (k : A -> PyM ext B) :
  stateless ext m -> (forall a, stateless ext (k a)) -> stateless ext (bind m k).
Proof.
  intros Hm Hk s s'. unfold bind. specialize (Hm s s').
  destruct (m s) as [[a | err] s1], (m s') as [[a' | err'] s1'];
    simpl in Hm; try discriminate; inversion Hm; subst; [apply Hk | reflexivity].
Qed.

Lemma stateless_try_except {A} (m : PyM ext A) (h : exn -> PyM ext A) :
  stateless ext m -> (forall err, stateless ext (h err)) -> stateless ext (try_except m h).
Proof.
  intros Hm Hh s s'. unfold try_except. specialize (Hm s s').
  destruct (m s) as [[a | err] s1], (m s') as [[a' | err'] s1'];
    simpl in Hm; try discriminate; inversion Hm; subst; [reflexivity | apply Hh].
Qed.

Lemma stateless_for_each {A S} (xs : list A) (body : A -> S -> PyM ext S) :
  (forall x acc, stateless ext (body x acc)) ->
  forall acc, stateless ext (for_each xs body acc).
Proof.
  intros Hbody. induction xs as [| x xs IH]; intros acc; simpl.
  - apply stateless_ret.
  - apply stateless_bind; auto.
Qed.

(** The ["user"] entry of the template data, when there is one, is a
    mapping: the personalization of a recipient never raises. *)
Lemma user_entry_is_a_mapping e s d s' v :
  get_template_data e s = (Returns d, s') ->
  Dict.get "user" d = Some v ->
  exists u, v = PDict u.
Proof.
  destruct e as [c y u x | c y u x h | c y u n x | c y u a | c y cust o];
    simpl; unfold ret.
  1-4: intros [= <- _]; simpl; intros [= <-]; unfold person_data; eauto.
  unfold bind, lift, now.
  destruct (order_products (items o)) as [ps | err]; [| discriminate].
  destruct (datetime_now ext (world s)) as [t w].
  destruct (order_total o) as [tot | err]; [| discriminate].
  intros [= <- _]. simpl. discriminate.
Qed.

Lemma personalize_data_returns e s d s' recipient s0 :
  get_template_data e s = (Returns d, s') ->
  exists d', personalize_data recipient d s0 = (Returns d', s0).
Proof.
  intros Hd. unfold personalize_data.
  destruct (Dict.get "user" d) as [v |] eqn:Hv; [| unfold ret; eauto].
  destruct (user_entry_is_a_mapping e s d s' v Hd Hv) as [u ->].
  unfold bind, name_or_user_name.
  destruct (opt_truthy (name recipient)); unfold ret; eauto.
Qed.

Lemma batch_personalize_data_returns e s d s' recipient s0 :
  get_template_data e s = (Returns d, s') ->
  exists d', batch_personalize_data recipient d s0 = (Returns d', s0).
Proof.
  intros Hd. unfold batch_personalize_data.
  destruct (Dict.get "user" d) as [v |] eqn:Hv; [| unfold ret; eauto].
  destruct (user_entry_is_a_mapping e s d s' v Hd Hv) as [u ->].
  unfold bind, dict_copy, name_or_user_name, ret.
  destruct (opt_truthy (name recipient)); eauto.
Qed.

Lemma template_data_of_clock_free_variant e :
  reads_clock e = false ->
  exists d, forall s, get_template_data e s = (Returns d, s).
Proof.
  destruct e; simpl; try discriminate; intros _; eexists; intros s; reflexivity.
Qed.

Lemma template_data_same_stamp e s1 s2 :
  strftime_dmY_HM (fst (datetime_now ext (world s1)))
  = strftime_dmY_HM (fst (datetime_now ext (world s2))) ->
  fst (get_template_data e s1) = fst (get_template_data e s2).
Proof.
  intros Hstamp. destruct e as [| | | | c y cust o]; try reflexivity.
  unfold get_template_data, bind, lift, now, ret.
  destruct (order_products (items o)) as [ps | err]; [| reflexivity].
  destruct (datetime_now ext (world s1)) as [t1 w1].
  destruct (datetime_now ext (world s2)) as [t2 w2].
  destruct (order_total o) as [tot | err]; [| reflexivity].
  simpl in *. unfold order_info_data. now rewrite Hstamp.
Qed.

Lemma stateless_get_template_data e :
  reads_clock e = false -> stateless ext (get_template_data e).
Proof.
  intros H. destruct (template_data_of_clock_free_variant e H) as [d Hd].
  intros s s'. now rewrite !Hd.
Qed.

Lemma stateless_render self tname context :
  stateless_rendering ext -> stateless ext (_render_with_inline_styles self tname context).
Proof.
  intros (Hload & Hrender & Hinline). unfold _render_with_inline_styles.
  apply stateless_bind.
  - apply stateless_try_except; [apply stateless_call, Hload |].
    intros err. destruct (isinstance err TemplateNotFound); apply stateless_raise.
  - intros t. apply stateless_bind.
    + apply stateless_try_except; [apply stateless_call, Hrender |].
      intros err. apply stateless_raise.
    + intros html. apply stateless_try_except; [apply stateless_call, Hinline |].
      intros err. apply stateless_bind; [apply stateless_log |].
      intros _. apply stateless_ret.
Qed.

Lemma stateless_personalize_data recipient td : stateless ext (personalize_data recipient td).
Proof.
  unfold personalize_data. destruct (Dict.get "user" td) as [u |];
    [| apply stateless_ret].
  apply stateless_bind; [| intros; apply stateless_ret].
  unfold name_or_user_name. destruct (opt_truthy (name recipient));
    [apply stateless_ret |].
  destruct u; first [apply stateless_ret | apply stateless_raise].
Qed.

Lemma stateless_send self e to subject from_email cc bcc personalize :
  testing self = true ->
  stateless_rendering ext ->
  reads_clock e = false ->
  stateless ext (send self e to subject from_email cc bcc personalize).
Proof.
  intros Htest Hpure Hclock. unfold send.
  apply stateless_bind.
  { apply stateless_try_except; [apply stateless_lift |].
    intros err. apply stateless_raise. }
  intros _. destruct personalize; simpl.
  - apply stateless_bind; [| intros; apply stateless_ret].
    apply stateless_for_each. intros recipient acc.
    unfold send_personalized_step. rewrite Htest.
    apply stateless_try_except.
    + apply stateless_bind; [now apply stateless_get_template_data |].
      intros td. apply stateless_bind; [apply stateless_personalize_data |].
      intros td'. apply stateless_bind; [now apply stateless_render |].
      intros html. apply stateless_ret.
    + intros err. apply stateless_bind; [apply stateless_log |].
      intros _. apply stateless_ret.
  - apply stateless_try_except.
    + apply stateless_bind; [| intros; apply stateless_ret].
      unfold send_plain. rewrite Htest.
      apply stateless_bind; [now apply stateless_get_template_data |].
      intros td. apply stateless_bind; [now apply stateless_render |].
      intros html. apply stateless_ret.
    + intros err. apply stateless_bind; [apply stateless_log |].
      intros _. apply stateless_raise.
Qed.

(** C8, as the code has it.  The template data of a welcome, password
    reset, notification or alert email is the same mapping at every
    call, and calling for it changes nothing; the data of any variant is
    the same at two calls whose clock readings print the same
    [created_at] stamp (only the order confirmation reads the clock);
    and with a template engine and an inliner that answer by their
    arguments alone, two sends of such a clock-free variant in testing
    mode, with the same arguments, return the same parameters. *)
Theorem template_data_and_test_sends_repeat e :
  (reads_clock e = false ->
   exists d, forall s, get_template_data e s = (Returns d, s))
  /\ (forall s1 s2,
        strftime_dmY_HM (fst (datetime_now ext (world s1)))
        = strftime_dmY_HM (fst (datetime_now ext (world s2))) ->
        fst (get_template_data e s1) = fst (get_template_data e s2))
  /\ (forall self to subject from_email cc bcc personalize s1 s2,
        testing self = true ->
        stateless_rendering ext ->
        reads_clock e = false ->
        fst (send self e to subject from_email cc bcc personalize s1)
        = fst (send self e to subject from_email cc bcc personalize s2)).
Proof.
  split; [apply template_data_of_clock_free_variant |].
  split; [apply template_data_same_stamp |].
  intros self to subject from_email cc bcc personalize s1 s2 Ht Hp Hc.
  now apply stateless_send.
Qed.

End Repeatability.

(** ** Constructing the service *)

Section Construction.
Context {ext : Externals}.
Implicit Types (s : St ext).

(** C9, as the code has it.  Outside testing mode, constructing the
    service fails when no API key is configured (neither the argument
    nor the settings give one), with the [EmailServiceError] "API key no
    configurada para el servicio de email" and the state untouched; and it
    fails when the templates directory (the argument, or else the one of
    the settings) does not exist, with an [EmailServiceError] again
    unless the default sender of the settings was needed and is not a
    valid address, whose validation error comes first.  No service is
    returned in either case. *)
Theorem construction_fails_without_key_or_templates
    settings api_key default_from templates_dir testing s :
  testing || TESTING settings = false ->
  (str_or api_key (RESEND_API_KEY settings) = "" ->
   EmailService_init settings api_key default_from templates_dir testing s
   = (Raises (mk_exn EmailServiceError
                "API key no configurada para el servicio de email"), s))
  /\ (Path_exists ext (default (TEMPLATES_DIR settings) templates_dir) (world s)
      = false ->
      exists err s',
        EmailService_init settings api_key default_from templates_dir testing s
        = (Raises err, s')
        /\ (exn_cls err = EmailServiceError
            \/ (default_from = None
                /\ EmailStr_validate ext (DEFAULT_FROM_EMAIL settings)
                   = Raises err))).
Proof.
  intros Hmode. apply orb_false_iff in Hmode as [-> Hsettings]. split.
  - intros Hkey. unfold EmailService_init. rewrite Hkey. reflexivity.
  - intros Hdir. unfold EmailService_init.
    destruct (negb (str_truthy (str_or api_key (RESEND_API_KEY settings))) && negb false);
      [do 2 eexists; split; [reflexivity | now left] |].
    unfold bind at 1. unfold set_resend_api_key at 1.
    unfold bind at 1.
    destruct default_from as [a |].
    + unfold ret at 1. simpl orb. rewrite Hsettings.
      destruct templates_dir as [d |]; simpl in Hdir.
      * unfold bind at 1. unfold bind at 1. unfold path_exists at 1.
        cbn [world]. rewrite Hdir. simpl.
        do 2 eexists; split; [reflexivity | now left].
      * unfold bind at 1. unfold try_except at 1. unfold get_templates_dir.
        unfold bind at 1. unfold path_exists at 1. cbn [world].
        rewrite Hdir, Hsettings. simpl.
        do 2 eexists; split; [reflexivity | now left].
    + unfold lift at 1. unfold EmailAddress_new.
      destruct (EmailStr_validate ext (DEFAULT_FROM_EMAIL settings)) as [a | err] eqn:Ha.
      * simpl orb. rewrite Hsettings.
        destruct templates_dir as [d |]; simpl in Hdir.
        -- unfold bind at 1. unfold bind at 1. unfold path_exists at 1.
           cbn [world]. rewrite Hdir. simpl.
           do 2 eexists; split; [reflexivity | now left].
        -- unfold bind at 1. unfold try_except at 1. unfold get_templates_dir.
           unfold bind at 1. unfold path_exists at 1. cbn [world].
           rewrite Hdir, Hsettings. simpl.
           do 2 eexists; split; [reflexivity | now left].
      * do 2 eexists; split; [reflexivity | right; auto].
Qed.

End Construction.

(** * Concrete runs *)

(** ** Personalized sends *)

(** A personalized send to three recipients, the provider rejecting the
    second: three outcomes in the order of the recipients, a receipt, the
    error record of the second recipient, a receipt. *)
Example isolation_of_the_second_recipient :
  fst (send (Stub.service Stub.bob_rejected "templates" false) Stub.welcome
         (inr [Stub.ann; Stub.bob; Stub.eve]) "Hi" None None None true
         (Stub.start (ext:=Stub.bob_rejected) 0))
  = Returns (Many [ [("id", PStr "msg-Ann <ann@x.test>")];
                    error_record "rejected: bob@x.test" "bob@x.test";
                    [("id", PStr "msg-Eve <eve@x.test>")] ]).
Proof. reflexivity. Qed.

Lemma personalized_send_isolates_failures_witness :
  validate Stub.welcome = Returns tt
  /\ exists outcomes s',
      send (Stub.service Stub.bob_rejected "templates" false) Stub.welcome
        (inr [Stub.ann; Stub.bob; Stub.eve]) "Hi" None None None true
        (Stub.start (ext:=Stub.bob_rejected) 0)
      = (Returns (Many outcomes), s')
      /\ length outcomes = length (recipients_of (inr [Stub.ann; Stub.bob; Stub.eve]))
      /\ isolated_outcomes (Stub.service Stub.bob_rejected "templates" false)
           Stub.welcome
           (default (default_from (Stub.service Stub.bob_rejected "templates" false))
              None)
           "Hi" (recipients_of (inr [Stub.ann; Stub.bob; Stub.eve]))
           (Stub.start (ext:=Stub.bob_rejected) 0) outcomes s'
      /\ Forall2
           (slot_of (Stub.service Stub.bob_rejected "templates" false) Stub.welcome
              (default (default_from (Stub.service Stub.bob_rejected "templates" false))
                 None) "Hi")
           (recipients_of (inr [Stub.ann; Stub.bob; Stub.eve])) outcomes.
Proof.
  split; [reflexivity |].
  apply (personalized_send_isolates_failures (ext:=Stub.bob_rejected)
           (Stub.service Stub.bob_rejected "templates" false) Stub.welcome
           (inr [Stub.ann; Stub.bob; Stub.eve]) "Hi" None None None
           (Stub.start (ext:=Stub.bob_rejected) 0)).
  reflexivity.
Defined.

(** C1 does not hold for the inlining step: here the inliner raises on
    the page of the only recipient, and the slot of that recipient holds
    the parameters with the page as rendered, not an error record; the
    failure is logged as a warning. *)
Lemma personalized_inline_failure_leaves_no_error_record :
  premailer_transform Stub.inliner_down "<p class=g>welcome.html: Ann</p>" 0
  = (Raises (mk_exn (OtherException "lxml.etree.ParserError") "Document is empty"), 0)
  /\ send (Stub.service Stub.inliner_down "templates" true) Stub.welcome
       (inr [Stub.ann]) "Hi" None None None true
       (Stub.start (ext:=Stub.inliner_down) 0)
     = (Returns (Many [ [ ("from", PStr "Acme <no-reply@acme.test>");
                          ("to", PList [PStr "Ann <ann@x.test>"]);
                          ("subject", PStr "Hi");
                          ("html", PStr "<p class=g>welcome.html: Ann</p>") ] ]),
        mk_St (ext:=Stub.inliner_down) 0
          [(WARNING, "Error al convertir estilos a inline: Document is empty")] "")
  /\ ~ (exists msg s',
          send (Stub.service Stub.inliner_down "templates" true) Stub.welcome
            (inr [Stub.ann]) "Hi" None None None true
            (Stub.start (ext:=Stub.inliner_down) 0)
          = (Returns (Many [error_record msg "ann@x.test"]), s')).
Proof.
  split; [reflexivity |]. split; [reflexivity |].
  intros (msg & s' & H). vm_compute in H. discriminate H.
Qed.

(** ** Plain sends *)

Lemma plain_send_failure_is_fatal_witness :
  validate Stub.welcome = Returns tt
  /\ send (Stub.service Stub.no_welcome_template "templates" false) Stub.welcome
       (inr [Stub.ann; Stub.bob; Stub.eve]) "Hi" None None None false
       (Stub.start (ext:=Stub.no_welcome_template) 0)
     = (Raises (mk_exn EmailServiceError
                  "Error al enviar email: Plantilla no encontrada: welcome.html"),
        mk_St (ext:=Stub.no_welcome_template) 0
          [(ERROR, "Error al enviar email: Plantilla no encontrada: welcome.html")] "").
Proof.
  split; [reflexivity |].
  exact (plain_send_failure_is_fatal (ext:=Stub.no_welcome_template)
           (Stub.service Stub.no_welcome_template "templates" false) Stub.welcome
           (inr [Stub.ann; Stub.bob; Stub.eve]) "Hi" None None None
           (Stub.start (ext:=Stub.no_welcome_template) 0)
           (Dict.update (base_template_data Stub.acme 2026)
              [ ("user", person_data Stub.ann "Usuario");
                ("dashboard_url", PStr "https://acme.test/d") ])
           (Stub.start (ext:=Stub.no_welcome_template) 0)
           (mk_exn TemplateNotFoundError "Plantilla no encontrada: welcome.html")
           (Stub.start (ext:=Stub.no_welcome_template) 0)
           eq_refl eq_refl (or_introl eq_refl)).
Defined.

(** A plain send to three recipients, the provider rejecting the message:
    one [EmailServiceError], no receipt. *)
Example plain_send_delivery_failure :
  fst (send (Stub.service Stub.bob_rejected "templates" false) Stub.welcome
         (inr [Stub.ann; Stub.bob; Stub.eve]) "Hi" None None None false
         (Stub.start (ext:=Stub.bob_rejected) 0))
  = Raises (mk_exn EmailServiceError "Error al enviar email: rejected").
Proof. reflexivity. Qed.

(** C2 does not hold for the inlining step: here the inliner raises, and
    the plain send returns the parameters with the page as rendered
    instead of raising. *)
Lemma plain_send_inline_failure_is_not_fatal :
  premailer_transform Stub.inliner_down "<p class=g>welcome.html: Ann</p>" 0
  = (Raises (mk_exn (OtherException "lxml.etree.ParserError") "Document is empty"), 0)
  /\ send (Stub.service Stub.inliner_down "templates" true) Stub.welcome
       (inr [Stub.ann; Stub.bob]) "Hi" None None None false
       (Stub.start (ext:=Stub.inliner_down) 0)
     = (Returns (Single [ ("from", PStr "Acme <no-reply@acme.test>");
                          ("to", PList [PStr "Ann <ann@x.test>"; PStr "bob@x.test"]);
                          ("subject", PStr "Hi");
                          ("html", PStr "<p class=g>welcome.html: Ann</p>") ]),
        mk_St (ext:=Stub.inliner_down) 0
          [(WARNING, "Error al convertir estilos a inline: Document is empty")] "")
  /\ ~ (exists err s',
          send (Stub.service Stub.inliner_down "templates" true) Stub.welcome
            (inr [Stub.ann; Stub.bob]) "Hi" None None None false
            (Stub.start (ext:=Stub.inliner_down) 0)
          = (Raises err, s')).
Proof.
  split; [reflexivity |]. split; [reflexivity |].
  intros (err & s' & H). vm_compute in H. discriminate H.
Qed.

(** ** Batches *)

Lemma send_batch_skips_entries_without_email_witness :
  validate Stub.welcome = Returns tt
  /\ [ ({[ "email" := "ann@x.test"; "name" := "Ann" ]} : gmap string string);
       {[ "name" := "Nobody" ]};
       {[ "email" := "bob@x.test" ]} ] <> []
  /\ exists outcomes n_ok n_err s1,
      send_batch (Stub.service Stub.bob_rejected "templates" false) Stub.welcome
        [ {[ "email" := "ann@x.test"; "name" := "Ann" ]};
          {[ "name" := "Nobody" ]};
          {[ "email" := "bob@x.test" ]} ] "Hi" None
        (Stub.start (ext:=Stub.bob_rejected) 0)
      = (Returns outcomes,
         logged INFO ("Envío en lote completado: " +:+ str_of_Z n_ok
                      +:+ " exitosos, " +:+ str_of_Z n_err +:+ " errores") s1)
      /\ length outcomes
         = length (List.filter has_email_key
                     [ ({[ "email" := "ann@x.test"; "name" := "Ann" ]}
                        : gmap string string);
                       {[ "name" := "Nobody" ]};
                       {[ "email" := "bob@x.test" ]} ])
      /\ n_ok + n_err = Z.of_nat (length outcomes)
      /\ batch_outcomes (Stub.service Stub.bob_rejected "templates" false)
           Stub.welcome
           (default (default_from (Stub.service Stub.bob_rejected "templates" false))
              None)
           "Hi"
           [ {[ "email" := "ann@x.test"; "name" := "Ann" ]};
             {[ "name" := "Nobody" ]};
             {[ "email" := "bob@x.test" ]} ]
           (Stub.start (ext:=Stub.bob_rejected) 0) outcomes s1
      /\ (Forall (fun rd => has_email_key rd = false)
            [ ({[ "email" := "ann@x.test"; "name" := "Ann" ]} : gmap string string);
              {[ "name" := "Nobody" ]};
              {[ "email" := "bob@x.test" ]} ] ->
          outcomes = []
          /\ world s1 = world (Stub.start (ext:=Stub.bob_rejected) 0)
          /\ logs s1
             = logs (Stub.start (ext:=Stub.bob_rejected) 0)
                 ++ repeat (WARNING, "Saltando destinatario sin email")
                      (length
                         [ ({[ "email" := "ann@x.test"; "name" := "Ann" ]}
                            : gmap string string);
                           {[ "name" := "Nobody" ]};
                           {[ "email" := "bob@x.test" ]} ])).
Proof.
  split; [reflexivity |]. split; [discriminate |].
  apply (send_batch_skips_entries_without_email (ext:=Stub.bob_rejected));
    [reflexivity | discriminate].
Defined.

(** The entry without the key is skipped: two outcomes for three entries. *)
Example batch_skips_the_entry_without_email :
  fst (send_batch (Stub.service Stub.bob_rejected "templates" false) Stub.welcome
         [ {[ "email" := "ann@x.test"; "name" := "Ann" ]};
           {[ "name" := "Nobody" ]};
           {[ "email" := "bob@x.test" ]} ] "Hi" None
         (Stub.start (ext:=Stub.bob_rejected) 0))
  = Returns [ [("id", PStr "msg-Ann <ann@x.test>")];
              error_record "rejected: bob@x.test" "bob@x.test" ].
Proof. vm_compute. reflexivity. Qed.

(** The log of that run: the warning of the skipped entry stands between
    the records of its neighbours. *)
Example batch_skip_is_logged :
  logs (snd (send_batch (Stub.service Stub.bob_rejected "templates" false)
               Stub.welcome
               [ {[ "email" := "ann@x.test"; "name" := "Ann" ]};
                 {[ "name" := "Nobody" ]};
                 {[ "email" := "bob@x.test" ]} ] "Hi" None
               (Stub.start (ext:=Stub.bob_rejected) 0)))
  = [ (INFO, "Enviando email en lote a ann@x.test");
      (WARNING, "Saltando destinatario sin email");
      (INFO, "Enviando email en lote a bob@x.test");
      (ERROR, "Error enviando a bob@x.test: rejected: bob@x.test");
      (INFO, "Envío en lote completado: 1 exitosos, 1 errores") ].
Proof. vm_compute. reflexivity. Qed.

(** C3 does not hold for an entry whose [email] is present but empty: of
    the two entries here, one with an empty address and one valid, neither
    is skipped; the result has two outcomes, not one, and the first is an
    error record. *)
Lemma batch_empty_email_is_not_skipped :
  ({[ "email" := "" ]} : gmap string string) !! "email" = Some ""
  /\ fst (send_batch (Stub.service Stub.healthy "templates" false) Stub.welcome
            [ {[ "email" := "" ]}; {[ "email" := "ann@x.test" ]} ] "Hi" None
            (Stub.start (ext:=Stub.healthy) 0))
     = Returns [ [("error", PStr "value is not a valid email address")];
                 [("id", PStr "msg-ann@x.test")] ]
  /\ ~ (exists outcomes s',
          send_batch (Stub.service Stub.healthy "templates" false) Stub.welcome
            [ {[ "email" := "" ]}; {[ "email" := "ann@x.test" ]} ] "Hi" None
            (Stub.start (ext:=Stub.healthy) 0)
          = (Returns outcomes, s')
          /\ length outcomes = 1%nat).
Proof.
  split; [vm_compute; reflexivity |]. split; [vm_compute; reflexivity |].
  intros (outcomes & s' & H & Hlen). vm_compute in H.
  injection H as <- _. discriminate Hlen.
Qed.

(** C4 fails on [send_batch]: when rendering raises for a recipient, the
    handler at the end of the loop body records the error message alone;
    the record has no [email] entry, although the recipient's address is
    known.  The personalized [send] records both for the same failure. *)
Theorem batch_processing_error_record_lacks_email :
  send_batch (Stub.service Stub.no_welcome_template "templates" false) Stub.welcome
    [ {[ "email" := "ann@x.test" ]} ] "Hi" None
    (Stub.start (ext:=Stub.no_welcome_template) 0)
  = (Returns [ [("error", PStr "Plantilla no encontrada: welcome.html")] ],
     mk_St (ext:=Stub.no_welcome_template) 0
       [ (ERROR, "Error al procesar destinatario: Plantilla no encontrada: welcome.html");
         (INFO, "Envío en lote completado: 0 exitosos, 1 errores") ] "")
  /\ Dict.get "email" [("error", PStr "Plantilla no encontrada: welcome.html")] = None
  /\ fst (send (Stub.service Stub.no_welcome_template "templates" false) Stub.welcome
            (inr [Stub.ann_unnamed]) "Hi" None None None true
            (Stub.start (ext:=Stub.no_welcome_template) 0))
     = Returns (Many [ error_record "Plantilla no encontrada: welcome.html"
                         "ann@x.test" ]).
Proof. repeat split; vm_compute; reflexivity. Qed.

(** ** Validation before dispatch *)

Lemma invalid_variant_aborts_before_any_work_witness :
  validate Stub.welcome_no_url
  = Raises (mk_exn ValidationError
              "dashboard_url es requerido para el email de bienvenida")
  /\ send (Stub.service Stub.healthy "templates" false) Stub.welcome_no_url
       (inr [Stub.ann; Stub.bob]) "Hi" None None None true
       (Stub.start (ext:=Stub.healthy) 0)
     = (Raises (mk_exn EmailServiceError
                  "Error al validar los datos del email: dashboard_url es requerido para el email de bienvenida"),
        Stub.start (ext:=Stub.healthy) 0)
  /\ send_batch (Stub.service Stub.healthy "templates" false) Stub.welcome_no_url
       [ {[ "email" := "ann@x.test" ]} ] "Hi" None (Stub.start (ext:=Stub.healthy) 0)
     = (Raises (mk_exn EmailServiceError
                  "Error al validar los datos del email: dashboard_url es requerido para el email de bienvenida"),
        Stub.start (ext:=Stub.healthy) 0).
Proof.
  split; [reflexivity |].
  exact (proj2 (invalid_variant_aborts_before_any_work (ext:=Stub.healthy)
                  (Stub.service Stub.healthy "templates" false) Stub.welcome_no_url
                  (inr [Stub.ann; Stub.bob]) [ {[ "email" := "ann@x.test" ]} ]
                  "Hi" None None None true (Stub.start (ext:=Stub.healthy) 0)
                  (mk_exn ValidationError
                     "dashboard_url es requerido para el email de bienvenida")
                  eq_refl)).
Defined.

(** C5 does not hold for the class of the error: the welcome email
    without a dashboard URL fails validation, and what [send] and
    [send_batch] raise is an [EmailServiceError], which is not a
    [ValidationError]. *)
Lemma invalid_variant_error_is_not_a_ValidationError :
  (exists msg, validate Stub.welcome_no_url = Raises (mk_exn ValidationError msg))
  /\ ~ (exists err s',
          send (Stub.service Stub.healthy "templates" false) Stub.welcome_no_url
            (inr [Stub.ann; Stub.bob]) "Hi" None None None false
            (Stub.start (ext:=Stub.healthy) 0)
          = (Raises err, s')
          /\ isinstance err ValidationError = true)
  /\ ~ (exists err s',
          send_batch (Stub.service Stub.healthy "templates" false)
            Stub.welcome_no_url [ {[ "email" := "ann@x.test" ]} ] "Hi" None
            (Stub.start (ext:=Stub.healthy) 0)
          = (Raises err, s')
          /\ isinstance err ValidationError = true).
Proof.
  split; [eexists; reflexivity |].
  split; intros (err & s' & H & Hcls); vm_compute in H;
    injection H as <- _; discriminate Hcls.
Qed.

Lemma send_batch_without_recipients_raises_witness :
  validate Stub.welcome = Returns tt
  /\ send_batch (Stub.service Stub.healthy "templates" false) Stub.welcome
       [] "Hi" None (Stub.start (ext:=Stub.healthy) 0)
     = (Raises (mk_exn EmailServiceError "No se proporcionaron destinatarios"),
        Stub.start (ext:=Stub.healthy) 0).
Proof.
  split; [reflexivity |].
  apply (send_batch_without_recipients_raises (ext:=Stub.healthy)
           (Stub.service Stub.healthy "templates" false) Stub.welcome "Hi" None
           (Stub.start (ext:=Stub.healthy) 0)).
  reflexivity.
Defined.

(** ** Repeated calls *)

Lemma stub_rendering_is_stateless : stateless_rendering Stub.healthy.
Proof.
  split; [| split].
  - intros env n w w'. reflexivity.
  - intros t d w w'. simpl. unfold Stub.render.
    destruct (Dict.get "user" d) as [[| | | | | u] |]; try reflexivity.
    destruct (Dict.get "name" u) as [[| | | n | |] |]; reflexivity.
  - intros h w w'. reflexivity.
Qed.

Lemma template_data_and_test_sends_repeat_witness :
  reads_clock Stub.welcome = false
  /\ Stub.service Stub.healthy "templates" true
     = Stub.service Stub.healthy "templates" true
  /\ (exists d, forall s,
         get_template_data (ext:=Stub.healthy) Stub.welcome s = (Returns d, s))
  /\ fst (get_template_data Stub.order_mail (mk_St (ext:=Stub.healthy) 0 [] ""))
     = fst (get_template_data Stub.order_mail
              (mk_St (ext:=Stub.healthy) 0 [(INFO, "later")] "re_key"))
  /\ fst (send (Stub.service Stub.healthy "templates" true) Stub.welcome
            (inr [Stub.ann; Stub.bob]) "Hi" None None None true
            (mk_St (ext:=Stub.healthy) 0 [] ""))
     = fst (send (Stub.service Stub.healthy "templates" true) Stub.welcome
              (inr [Stub.ann; Stub.bob]) "Hi" None None None true
              (mk_St (ext:=Stub.healthy) 7 [] "")).
Proof.
  split; [reflexivity |]. split; [reflexivity |].
  destruct (template_data_and_test_sends_repeat (ext:=Stub.healthy) Stub.welcome)
    as (Hdata & _ & Hsend).
  destruct (template_data_and_test_sends_repeat (ext:=Stub.healthy) Stub.order_mail)
    as (_ & Hstamp & _).
  split; [exact (Hdata eq_refl) |].
  split; [exact (Hstamp (mk_St (ext:=Stub.healthy) 0 [] "")
                   (mk_St (ext:=Stub.healthy) 0 [(INFO, "later")] "re_key") eq_refl) |].
  exact (Hsend (Stub.service Stub.healthy "templates" true)
           (inr [Stub.ann; Stub.bob]) "Hi" None None None true
           (mk_St (ext:=Stub.healthy) 0 [] "") (mk_St (ext:=Stub.healthy) 7 [] "")
           eq_refl stub_rendering_is_stateless eq_refl).
Defined.

(** C8 does not hold for the order confirmation: [get_template_data]
    stamps [order_info.created_at] with the clock at the time of the call,
    so two calls on the same instance, a minute apart, return different
    mappings. *)
Lemma order_template_data_differs_between_calls :
  exists d1 s1 d2 s2,
    get_template_data Stub.order_mail (Stub.start (ext:=Stub.healthy) 0)
    = (Returns d1, s1)
    /\ get_template_data Stub.order_mail s1 = (Returns d2, s2)
    /\ d1 <> d2
    /\ Dict.get "order_info" d1 <> Dict.get "order_info" d2.
Proof.
  do 4 eexists. split; [reflexivity |]. split; [reflexivity |].
  split; intros H; vm_compute in H; discriminate H.
Qed.

(** ** Construction *)

Lemma construction_fails_without_key_or_templates_witness :
  false || TESTING (mk_settings "" "no-reply@example.com" "Email System"
                      "templates" false) = false
  /\ EmailService_init
       (mk_settings "" "no-reply@example.com" "Email System" "templates" false)
       None None None false (Stub.start (ext:=Stub.healthy) 0)
     = (Raises (mk_exn EmailServiceError
                  "API key no configurada para el servicio de email"),
        Stub.start (ext:=Stub.healthy) 0)
  /\ exists err s',
      EmailService_init
        (mk_settings "re_key" "no-reply@example.com" "Email System" "templates" false)
        None None (Some "no-such-dir") false (Stub.start (ext:=Stub.healthy) 0)
      = (Raises err, s')
      /\ (exn_cls err = EmailServiceError
          \/ ((None : option EmailAddress) = None
              /\ EmailStr_validate Stub.healthy "no-reply@example.com" = Raises err)).
Proof.
  split; [reflexivity |]. split.
  - exact (proj1 (construction_fails_without_key_or_templates (ext:=Stub.healthy)
                    (mk_settings "" "no-reply@example.com" "Email System"
                       "templates" false)
                    None None None false (Stub.start (ext:=Stub.healthy) 0) eq_refl)
             eq_refl).
  - exact (proj2 (construction_fails_without_key_or_templates (ext:=Stub.healthy)
                    (mk_settings "re_key" "no-reply@example.com" "Email System"
                       "templates" false)
                    None None (Some "no-such-dir") false
                    (Stub.start (ext:=Stub.healthy) 0) eq_refl)
             eq_refl).
Defined.

(** With a key and the templates in place, the service is constructed. *)
Example construction_succeeds :
  fst (EmailService_init
         (mk_settings "re_key" "no-reply@example.com" "Email System" "templates" false)
         None None None false (Stub.start (ext:=Stub.healthy) 0))
  = Returns (mk_EmailService (ext:=Stub.healthy) "re_key"
               (mk_EmailAddress "no-reply@example.com" (Some "Email System"))
               false "templates" "templates").
Proof. reflexivity. Qed.

(** C9 does not hold for the class of the error: without an API key and
    outside testing mode, and likewise without the templates directory,
    construction raises an [EmailServiceError], which is not a
    [ConfigurationError]. *)
Lemma construction_error_is_not_a_ConfigurationError :
  ~ (exists err s',
       EmailService_init
         (mk_settings "" "no-reply@example.com" "Email System" "templates" false)
         None None None false (Stub.start (ext:=Stub.healthy) 0)
       = (Raises err, s')
       /\ isinstance err ConfigurationError = true)
  /\ ~ (exists err s',
          EmailService_init
            (mk_settings "re_key" "no-reply@example.com" "Email System"
               "templates" false)
            None None (Some "no-such-dir") false (Stub.start (ext:=Stub.healthy) 0)
          = (Raises err, s')
          /\ isinstance err ConfigurationError = true).
Proof.
  split; intros (err & s' & H & Hcls); vm_compute in H;
    injection H as <- _; discriminate Hcls.
Qed.

(** * Further properties of the code *)

(** ** Dictionaries *)

Lemma dict_get_set_eq k v d : Dict.get k (Dict.set k v d) = Some v.
Proof.
  induction d as [| [k' v'] d IH]; simpl.
  - now rewrite String.eqb_refl.
  - destruct (String.eqb_spec k k'); simpl.
    + now rewrite String.eqb_refl.
    + destruct (String.eqb_spec k k'); [contradiction | exact IH].
Qed.

Lemma dict_get_set_ne k k' v d :
  k <> k' -> Dict.get k' (Dict.set k v d) = Dict.get k' d.
Proof.
  intros Hne. induction d as [| [k0 v0] d IH]; simpl.
  - destruct (String.eqb_spec k' k); [congruence | reflexivity].
  - destruct (String.eqb_spec k k0); simpl.
    + subst k0. destruct (String.eqb_spec k' k); [congruence | reflexivity].
    + destruct (String.eqb_spec k' k0); [reflexivity | exact IH].
Qed.

Lemma dict_keys_set_present k v d :
  Dict.get k d <> None -> Dict.keys (Dict.set k v d) = Dict.keys d.
Proof.
  unfold Dict.keys. induction d as [| [k0 v0] d IH]; simpl; [congruence |].
  destruct (String.eqb_spec k k0); simpl; intros H.
  - now subst.
  - now rewrite IH.
Qed.

Lemma dict_set_absent_keys k v d :
  Dict.get k d = None -> Dict.keys (Dict.set k v d) = Dict.keys d ++ [k].
Proof.
  unfold Dict.keys. induction d as [| [k0 v0] d IH]; simpl; [reflexivity |].
  destruct (String.eqb_spec k k0); simpl; intros H; [discriminate |].
  now rewrite IH.
Qed.

(** ** Display form of an address *)

Lemma string_length_app (a b : string) :
  String.length (a +:+ b) = (String.length a + String.length b)%nat.
Proof. induction a as [| c a IH]; simpl; [reflexivity | now rewrite IH]. Qed.

(** X2. [str(address)] is the bare address exactly when the name is
    missing or empty; with a name [n] it is [n <address>]. *)
Theorem display_is_bare_address_iff_no_name (a : EmailAddress) :
  (EmailAddress_str a = email a <-> opt_truthy (name a) = false)
  /\ (forall n, name a = Some n -> n <> "" ->
        EmailAddress_str a = n +:+ " <" +:+ email a +:+ ">").
Proof.
  unfold EmailAddress_str, opt_truthy. split.
  - destruct (name a) as [n |]; [| tauto].
    destruct (str_truthy n) eqn:Hn; [| tauto].
    split; [| discriminate]. intros H. exfalso.
    apply (f_equal String.length) in H.
    rewrite !string_length_app in H. simpl in H.
    apply str_truthy_true in Hn. destruct n; [congruence | simpl in H; lia].
  - intros n Hname Hn. rewrite Hname.
    apply str_truthy_true in Hn. now rewrite Hn.
Qed.

(** ** Provider parameters *)

(** X1. The parameters always carry [from], [to], [subject] and [html],
    in this order, with one display string per recipient in [to]; [cc]
    and [bcc] follow exactly when the argument is a non-empty list, an
    empty list being treated like no list. *)
Theorem prepared_params_entries (from_email : EmailAddress)
    (to : list EmailAddress) (subject html : string)
    (cc bcc : option (list EmailAddress)) :
  Dict.keys (_prepare_email_params from_email to subject html cc bcc)
  = ["from"; "to"; "subject"; "html"]
      ++ (if list_truthy cc then ["cc"] else [])
      ++ (if list_truthy bcc then ["bcc"] else [])
  /\ Dict.get "from" (_prepare_email_params from_email to subject html cc bcc)
     = Some (PStr (EmailAddress_str from_email))
  /\ Dict.get "to" (_prepare_email_params from_email to subject html cc bcc)
     = Some (PList (map (fun a => PStr (EmailAddress_str a)) to))
  /\ Dict.get "subject" (_prepare_email_params from_email to subject html cc bcc)
     = Some (PStr subject)
  /\ Dict.get "html" (_prepare_email_params from_email to subject html cc bcc)
     = Some (PStr html)
  /\ Dict.get "cc" (_prepare_email_params from_email to subject html cc bcc)
     = (if list_truthy cc
        then Some (PList (map (fun a => PStr (EmailAddress_str a)) (default [] cc)))
        else None)
  /\ Dict.get "bcc" (_prepare_email_params from_email to subject html cc bcc)
     = (if list_truthy bcc
        then Some (PList (map (fun a => PStr (EmailAddress_str a)) (default [] bcc)))
        else None).
Proof.
  unfold _prepare_email_params, addr_list.
  destruct (list_truthy cc), (list_truthy bcc); repeat split; reflexivity.
Qed.

(** ** Template data *)

Section TemplateData.
Context {ext : Externals}.
Implicit Types (s : St ext) (e : BaseEmail).

(** X3. Whenever [get_template_data] returns, the mapping has the
    [company] block and the [year] of the instance; a welcome, password
    reset, notification or alert email has the [user] block, with the
    name ["Usuario"] when the user has none; an order confirmation has no
    [user] block but the [customer] block, with the name ["Cliente"]. *)
Theorem template_data_entries e s d s' :
  get_template_data e s = (Returns d, s') ->
  Dict.get "company" d
  = Dict.get "company" (base_template_data (company_of e) (year_of e))
  /\ Dict.get "year" d = Some (PInt (year_of e))
  /\ (if reads_clock e
      then Dict.get "user" d = None
           /\ Dict.get "customer" d = Some (person_data (addressee_of e) "Cliente")
      else Dict.get "user" d = Some (person_data (addressee_of e) "Usuario")
           /\ Dict.get "customer" d = None).
Proof.
  destruct e as [c y u x | c y u x h | c y u n x | c y u a | c y cust o];
    simpl; unfold ret.
  1-4: intros [= <- _]; repeat split; reflexivity.
  unfold bind, lift, now.
  destruct (order_products (items o)) as [ps | err]; [| discriminate].
  destruct (datetime_now ext (world s)) as [t w].
  destruct (order_total o) as [tot | err]; [| discriminate].
  intros [= <- _]. repeat split; reflexivity.
Qed.

Lemma order_products_raises its err :
  order_products its = Raises err ->
  exists it, In it its /\ PyFloat.of_int (quantity it) = Raises err.
Proof.
  induction its as [| it its IH]; simpl; [discriminate |].
  unfold item_total.
  destruct (PyFloat.of_int (quantity it)) as [q | err0] eqn:Hq.
  - destruct (order_products its) as [ps | err1]; [discriminate |].
    intros [= <-]. destruct (IH eq_refl) as (it' & Hin & Hit). eauto.
  - intros [= <-]. eauto.
Qed.

Lemma order_products_returns_totals its ps :
  order_products its = Returns ps -> exists ts, item_totals its = Returns ts.
Proof.
  revert ps. induction its as [| it its IH]; simpl; intros ps; [eauto |].
  destruct (item_total it) as [t | err]; [| discriminate].
  destruct (order_products its) as [ps' | err]; [| discriminate].
  intros _. destruct (IH ps' eq_refl) as [ts ->]. eauto.
Qed.

(** X4. [get_template_data] raises only for an order confirmation one of
    whose quantities is too large to be converted to a float, with the
    [OverflowError] of that conversion, and it does so before the clock
    is read: the state is the one the call started in. *)
Theorem template_data_raises_only_on_overflow e s err s' :
  get_template_data e s = (Raises err, s') ->
  s' = s
  /\ exists c y customer o it,
      e = OrderConfirmationEmail c y customer o
      /\ In it (items o)
      /\ PyFloat.of_int (quantity it) = Raises err
      /\ exn_cls err = OverflowError.
Proof.
  destruct e as [c y u x | c y u x h | c y u n x | c y u a | c y cust o];
    simpl; unfold ret; try discriminate.
  unfold bind, lift, now.
  destruct (order_products (items o)) as [ps | err0] eqn:Hps.
  - destruct (order_products_returns_totals _ _ Hps) as [ts Hts].
    destruct (datetime_now ext (world s)) as [t w].
    unfold order_total. rewrite Hts. discriminate.
  - intros [= <- <-]. split; [reflexivity |].
    destruct (order_products_raises _ _ Hps) as (it & Hin & Hit).
    exists c, y, cust, o, it. repeat split; auto.
    unfold PyFloat.of_int in Hit.
    destruct (is_infinity _); inversion Hit; reflexivity.
Qed.

(** *** Personalization *)

(** X5. Personalizing the data for a recipient leaves the state, the keys
    and every entry but [user] as they are; a [user] block is replaced by
    the recipient's address and the name the recipient is addressed by
    (the recipient's own, else the one of the block, else ["Usuario"]);
    data without a [user] block come back unchanged. *)
Theorem personalization_touches_only_user recipient (d d' : pydict) s s' :
  personalize_data recipient d s = (Returns d', s') ->
  s' = s
  /\ Dict.keys d' = Dict.keys d
  /\ (forall k, k <> "user" -> Dict.get k d' = Dict.get k d)
  /\ (forall u, Dict.get "user" d = Some (PDict u) ->
        Dict.get "user" d'
        = Some (PDict [ ("name", addressed_name recipient u);
                        ("email", PStr (email recipient)) ]))
  /\ (Dict.get "user" d = None -> d' = d).
Proof.
  unfold personalize_data.
  destruct (Dict.get "user" d) as [v |] eqn:Hv.
  - unfold bind, name_or_user_name, addressed_name.
    destruct (opt_truthy (name recipient)) eqn:Hn.
    + unfold ret. intros [= <- <-]. split; [reflexivity |].
      split; [apply dict_keys_set_present; congruence |].
      split; [intros k Hk; apply dict_get_set_ne; congruence |].
      split; [| discriminate].
      intros u _. apply dict_get_set_eq.
    + destruct v; unfold raise, ret; try discriminate.
      intros [= <- <-]. split; [reflexivity |].
      split; [apply dict_keys_set_present; congruence |].
      split; [intros k Hk; apply dict_get_set_ne; congruence |].
      split; [| discriminate].
      intros u [= <-]. apply dict_get_set_eq.
  - unfold ret. intros [= <- <-]. repeat split; auto. discriminate.
Qed.

(** X6. An order confirmation is never personalized: its data have a
    [customer] block and no [user] block, so both the personalized [send]
    and [send_batch] render the data of the instance, unchanged, for
    every recipient. *)
Theorem order_confirmation_is_not_personalized
    c y customer o s (d : pydict) s' recipient s0 :
  get_template_data (OrderConfirmationEmail c y customer o) s = (Returns d, s') ->
  personalize_data recipient d s0 = (Returns d, s0)
  /\ batch_personalize_data recipient d s0 = (Returns d, s0).
Proof.
  intros Hd.
  destruct (template_data_entries _ _ _ _ Hd) as (_ & _ & Huser & _).
  simpl in Huser. unfold personalize_data, batch_personalize_data.
  rewrite Huser. split; reflexivity.
Qed.

(** X7. On the data of any variant, [send_batch] personalizes exactly as
    the personalized [send] does: copying the [user] block and updating
    its name and address gives the block that [send] builds afresh. *)
Theorem batch_personalizes_like_send e s (d : pydict) s' recipient s0 :
  get_template_data e s = (Returns d, s') ->
  batch_personalize_data recipient d s0 = personalize_data recipient d s0.
Proof.
  intros Hd.
  destruct (template_data_entries _ _ _ _ Hd) as (_ & _ & Huser).
  unfold personalize_data, batch_personalize_data.
  destruct (reads_clock e).
  - destruct Huser as [-> _]. reflexivity.
  - destruct Huser as [-> _]. unfold person_data, dict_copy, bind, ret.
    unfold name_or_user_name.
    destruct (opt_truthy (name recipient)); reflexivity.
Qed.

End TemplateData.

(** ** Batches, entry by entry *)

Section BatchIsolation.
Context {ext : Externals}.
Implicit Types (self : EmailService ext) (s : St ext) (e : BaseEmail).

(** X8. For a variant that validates and a non-empty list, [send_batch]
    returns normally, and its outcomes follow the entries in order, each
    entry worked on in the state its predecessor left: nothing for an
    entry without the [email] key, the record of the error message alone
    when constructing the recipient, building the data or rendering
    raises, the parameters in testing mode, and otherwise the provider's
    answer or the record of the provider's error with the recipient's
    address.  No entry stops the entries after it. *)
Theorem send_batch_outcomes_follow_entries
    self e recipients subject from_email s :
  validate e = Returns tt ->
  recipients <> [] ->
  exists outcomes s1 n_ok n_err,
    send_batch self e recipients subject from_email s
    = (Returns outcomes,
       logged INFO ("Envío en lote completado: " +:+ str_of_Z n_ok
                    +:+ " exitosos, " +:+ str_of_Z n_err +:+ " errores") s1)
    /\ batch_outcomes self e (default (default_from self) from_email) subject
         recipients s outcomes s1.
Proof.
  intros Hv Hne. unfold send_batch. fold (preflight (ext:=ext) e).
  rewrite (bind_returns _ _ _ _ _ (preflight_ok e s Hv)).
  destruct recipients as [| rd rest]; [congruence |].
  destruct (batch_loop_outcomes self e (default (default_from self) from_email)
              subject (rd :: rest) (mk_acc [] 0 0) s)
    as (acc' & s' & out & Hrun & Hres & Hout).
  simpl in Hres. subst out.
  exists (results acc'), s', (successes acc'), (errors acc').
  rewrite (bind_returns _ _ _ _ _ Hrun). split; [reflexivity | exact Hout].
Qed.

(** *** Testing mode *)

Lemma send_returns_validated self e to subject from_email cc bcc personalize s r s' :
  send self e to subject from_email cc bcc personalize s = (Returns r, s') ->
  validate e = Returns tt.
Proof.
  intros H. destruct (validate e) as [[] | err] eqn:Hv; [reflexivity |].
  unfold send in H. fold (preflight (ext:=ext) e) in H.
  rewrite (bind_raises _ _ _ _ _ (preflight_fails e s err Hv)) in H. discriminate.
Qed.

(** X9. In testing mode a non-personalized [send] that returns hands back
    the parameters of the one message it would have sent: all the
    recipients in [to], the subject, the given sender or else the default
    one, [cc] and [bcc] as given, and as [html] the very page that
    [_render_with_inline_styles] returned for the template and the data of
    the variant; the state is the one the rendering left. *)
Theorem plain_test_send_returns_the_parameters
    self e to subject from_email cc bcc s r s' :
  testing self = true ->
  send self e to subject from_email cc bcc false s = (Returns r, s') ->
  exists data s1 html,
    get_template_data e s = (Returns data, s1)
    /\ _render_with_inline_styles self (template_name e) data s1
       = (Returns html, s')
    /\ r = Single (_prepare_email_params (default (default_from self) from_email)
                     (recipients_of to) subject html cc bcc).
Proof.
  intros Htest Hrun.
  pose proof (send_returns_validated _ _ _ _ _ _ _ _ _ _ _ Hrun) as Hv.
  unfold send in Hrun. fold (preflight (ext:=ext) e) in Hrun.
  rewrite (bind_returns _ _ _ _ _ (preflight_ok e s Hv)) in Hrun.
  simpl in Hrun. fold (recipients_of to) in Hrun.
  unfold try_except, send_plain, bind in Hrun. rewrite Htest in Hrun.
  destruct (get_template_data e s) as [[td | err] s1]; [| discriminate].
  destruct (_render_with_inline_styles self (template_name e) td s1)
    as [[html | err] s2] eqn:Hrender; [| discriminate].
  unfold ret in Hrun. injection Hrun as <- <-.
  exists td, s1, html. repeat split. exact Hrender.
Qed.

Lemma recipient_work_in_testing self e from_email subject recipient s d s1 :
  testing self = true ->
  recipient_work self e from_email subject recipient s = (Returns d, s1) ->
  exists html,
    d = _prepare_email_params from_email [recipient] subject html None None.
Proof.
  intros Htest. unfold recipient_work, bind. rewrite Htest.
  destruct (get_template_data e s) as [[td | err] s0]; [| discriminate].
  destruct (personalize_data recipient td s0) as [[td' | err] s2]; [| discriminate].
  destruct (_render_with_inline_styles self (template_name e) td' s2)
    as [[html | err] s3]; [| discriminate].
  unfold ret. intros [= <- _]. eauto.
Qed.

Lemma isolated_outcomes_in_testing self e from_email subject to s outcomes s' :
  testing self = true ->
  isolated_outcomes self e from_email subject to s outcomes s' ->
  Forall2
    (fun recipient d =>
       (exists msg, d = error_record msg (email recipient))
       \/ (exists html,
             d = _prepare_email_params from_email [recipient] subject html
                   None None))
    to outcomes.
Proof.
  intros Htest. induction 1; constructor; auto.
  - right. eapply recipient_work_in_testing; eauto.
  - left. eauto.
Qed.

(** X10. In testing mode a personalized [send] that returns hands back,
    for each recipient in order, either the record of that recipient's
    error or the parameters of a message to that recipient alone; these
    parameters never carry [cc] or [bcc], whatever the arguments of the
    call were. *)
Theorem personalized_test_send_addresses_each_recipient_alone
    self e to subject from_email cc bcc s r s' :
  testing self = true ->
  send self e to subject from_email cc bcc true s = (Returns r, s') ->
  exists outcomes,
    r = Many outcomes
    /\ Forall2
         (fun recipient d =>
            (exists msg, d = error_record msg (email recipient))
            \/ (exists html,
                  d = _prepare_email_params (default (default_from self) from_email)
                        [recipient] subject html None None
                  /\ Dict.get "cc" d = None /\ Dict.get "bcc" d = None))
         (recipients_of to) outcomes.
Proof.
  intros Htest Hrun.
  pose proof (send_returns_validated _ _ _ _ _ _ _ _ _ _ _ Hrun) as Hv.
  unfold send in Hrun. fold (preflight (ext:=ext) e) in Hrun.
  rewrite (bind_returns _ _ _ _ _ (preflight_ok e s Hv)) in Hrun.
  simpl in Hrun. fold (recipients_of to) in Hrun.
  destruct (personalized_loop self e (default (default_from self) from_email)
              subject (recipients_of to) [] s) as (out & s1 & Hloop & _ & Hout).
  rewrite (bind_returns _ _ _ _ _ Hloop) in Hrun.
  unfold ret in Hrun. injection Hrun as <- _. simpl.
  exists out. split; [reflexivity |].
  eapply Forall2_impl;
    [eapply isolated_outcomes_in_testing; eauto |].
  intros recipient d [Herr | [html ->]]; [now left | right].
  exists html. repeat split; reflexivity.
Qed.

End BatchIsolation.

(** ** Testing mode and the provider *)

Section ProviderFree.
Context {ext : Externals}.
Variable provider : string -> pydict -> World ext -> pyres pydict * World ext.
Implicit Types (self : EmailService ext) (s : St ext) (e : BaseEmail).

Local Abbreviation ext' := (with_provider ext provider).

Lemma free_ret {A} (a : A) :
  provider_free provider (ret (ext:=ext) a) (ret (ext:=ext') a).
Proof. intros s. reflexivity. Qed.

Lemma free_raise {A} (err : exn) :
  provider_free provider (raise (ext:=ext) (A:=A) err) (raise (ext:=ext') err).
Proof. intros s. reflexivity. Qed.

Lemma free_lift {A} (r : pyres A) :
  provider_free provider (lift (ext:=ext) r) (lift (ext:=ext') r).
Proof. intros s. reflexivity. Qed.

Lemma free_log lvl msg :
  provider_free provider (log (ext:=ext) lvl msg) (log (ext:=ext') lvl msg).
Proof. intros s. reflexivity. Qed.

Lemma free_now : provider_free provider (now (ext:=ext)) (now (ext:=ext')).
Proof.
  intros s. unfold now, swap_run. simpl.
  destruct (datetime_now ext (world s)). reflexivity.
Qed.

Lemma free_call {A} (f : World ext -> pyres A * World ext) :
  provider_free provider (call (ext:=ext) f) (call (ext:=ext') f).
Proof.
  intros s. unfold call, swap_run. simpl.
  destruct (f (world s)). reflexivity.
Qed.

Lemma free_bind {A B} (m : PyM ext A) (m' : PyM ext' A)
    (k : A -> PyM ext B) (k' : A -> PyM ext' B) :
  provider_free provider m m' ->
  (forall a, provider_free provider (k a) (k' a)) ->
  provider_free provider (bind m k) (bind m' k').
Proof.
  intros Hm Hk s. unfold bind. rewrite Hm. unfold swap_run.
  destruct (m s) as [[a | err] s1]; simpl; [apply Hk | reflexivity].
Qed.

Lemma free_try_except {A} (m : PyM ext A) (m' : PyM ext' A)
    (h : exn -> PyM ext A) (h' : exn -> PyM ext' A) :
  provider_free provider m m' ->
  (forall err, provider_free provider (h err) (h' err)) ->
  provider_free provider (try_except m h) (try_except m' h').
Proof.
  intros Hm Hh s. unfold try_except. rewrite Hm. unfold swap_run.
  destruct (m s) as [[a | err] s1]; simpl; [reflexivity | apply Hh].
Qed.

Lemma free_for_each {A S} (xs : list A)
    (body : A -> S -> PyM ext S) (body' : A -> S -> PyM ext' S) :
  (forall x acc, provider_free provider (body x acc) (body' x acc)) ->
  forall acc, provider_free provider (for_each xs body acc) (for_each xs body' acc).
Proof.
  intros Hbody. induction xs as [| x xs IH]; intros acc; simpl.
  - apply free_ret.
  - apply free_bind; auto.
Qed.

Lemma free_get_template_data e :
  provider_free provider (get_template_data (ext:=ext) e)
    (get_template_data (ext:=ext') e).
Proof.
  destruct e; simpl; try apply free_ret.
  apply free_bind; [apply free_lift |]. intros ps.
  apply free_bind; [apply free_now |]. intros t.
  apply free_bind; [apply free_lift |]. intros tot. apply free_ret.
Qed.

Lemma free_render self tname context :
  provider_free provider (_render_with_inline_styles self tname context)
    (_render_with_inline_styles (swap_service provider self) tname context).
Proof.
  unfold _render_with_inline_styles.
  apply free_bind.
  - apply free_try_except; [apply (free_call (get_template ext (template_env self) tname)) |].
    intros err. destruct (isinstance err TemplateNotFound); apply free_raise.
  - intros t. apply free_bind.
    + apply free_try_except; [apply (free_call (template_render ext t context)) |].
      intros err. apply free_raise.
    + intros html.
      apply free_try_except; [apply (free_call (premailer_transform ext html)) |].
      intros err. apply free_bind; [apply free_log |]. intros _. apply free_ret.
Qed.

Lemma free_name_or_user_name recipient user :
  provider_free provider (name_or_user_name (ext:=ext) recipient user)
    (name_or_user_name (ext:=ext') recipient user).
Proof.
  unfold name_or_user_name. destruct (opt_truthy (name recipient));
    [apply free_ret |].
  destruct user; first [apply free_ret | apply free_raise].
Qed.

Lemma free_personalize_data recipient td :
  provider_free provider (personalize_data (ext:=ext) recipient td)
    (personalize_data (ext:=ext') recipient td).
Proof.
  unfold personalize_data. destruct (Dict.get "user" td); [| apply free_ret].
  apply free_bind; [apply free_name_or_user_name |]. intros nm. apply free_ret.
Qed.

Lemma free_batch_personalize_data recipient td :
  provider_free provider (batch_personalize_data (ext:=ext) recipient td)
    (batch_personalize_data (ext:=ext') recipient td).
Proof.
  unfold batch_personalize_data. destruct (Dict.get "user" td) as [u |];
    [| apply free_ret].
  apply free_bind.
  - unfold dict_copy. destruct u; first [apply free_ret | apply free_raise].
  - intros ud. apply free_bind; [apply free_name_or_user_name |].
    intros nm. apply free_ret.
Qed.

Lemma free_preflight e :
  provider_free provider
    (try_except (ext:=ext) (lift (validate e))
       (fun err =>
          service_error ("Error al validar los datos del email: " +:+ exn_msg err)))
    (try_except (ext:=ext') (lift (validate e))
       (fun err =>
          service_error ("Error al validar los datos del email: " +:+ exn_msg err))).
Proof.
  apply free_try_except; [apply free_lift |]. intros err. apply free_raise.
Qed.

(** X11. In testing mode neither [send] nor [send_batch] calls the
    delivery provider: with any other provider in its place, the call
    returns the same value (or raises the same exception) and leaves the
    same world and the same log. *)
Theorem testing_mode_never_calls_the_provider
    self e to recipients subject from_email cc bcc personalize s :
  testing self = true ->
  send (swap_service provider self) e to subject from_email cc bcc personalize
    (swap_state provider s)
  = swap_run provider (send self e to subject from_email cc bcc personalize s)
  /\ send_batch (swap_service provider self) e recipients subject from_email
       (swap_state provider s)
     = swap_run provider (send_batch self e recipients subject from_email s).
Proof.
  intros Htest. split.
  - revert s. change (provider_free provider
                        (send self e to subject from_email cc bcc personalize)
                        (send (swap_service provider self) e to subject from_email
                           cc bcc personalize)).
    unfold send. apply free_bind; [apply free_preflight |]. intros _.
    destruct personalize; simpl.
    + apply free_bind; [| intros; apply free_ret].
      apply free_for_each. intros recipient acc.
      unfold send_personalized_step. simpl. rewrite Htest.
      apply free_try_except.
      * apply free_bind; [apply free_get_template_data |]. intros td.
        apply free_bind; [apply free_personalize_data |]. intros td'.
        apply free_bind; [apply free_render |]. intros html. apply free_ret.
      * intros err. apply free_bind; [apply free_log |]. intros _.
        apply free_ret.
    + apply free_try_except.
      * apply free_bind; [| intros; apply free_ret].
        unfold send_plain. simpl. rewrite Htest.
        apply free_bind; [apply free_get_template_data |]. intros td.
        apply free_bind; [apply free_render |]. intros html. apply free_ret.
      * intros err. apply free_bind; [apply free_log |]. intros _.
        apply free_raise.
  - revert s. change (provider_free provider
                        (send_batch self e recipients subject from_email)
                        (send_batch (swap_service provider self) e recipients
                           subject from_email)).
    unfold send_batch. apply free_bind; [apply free_preflight |]. intros _.
    destruct recipients as [| rd rest]; [apply free_raise |].
    apply free_bind.
    + apply free_for_each. intros recipient_data acc.
      unfold send_batch_step. simpl. rewrite Htest.
      apply free_try_except.
      * destruct (recipient_data !! "email") as [addr |].
        -- apply free_bind; [apply free_lift |]. intros recipient.
           apply free_bind; [apply free_get_template_data |]. intros td.
           apply free_bind; [apply free_batch_personalize_data |]. intros td'.
           apply free_bind; [apply free_render |]. intros html. apply free_ret.
        -- apply free_bind; [apply free_log |]. intros _. apply free_ret.
      * intros err. apply free_bind; [apply free_log |]. intros _.
        apply free_ret.
    + intros acc. apply free_bind; [apply free_log |]. intros _. apply free_ret.
Qed.

End ProviderFree.

(** ** Construction and wiring *)

Section ConstructionMore.
Context {ext : Externals}.
Implicit Types (s : St ext).



Lemma get_templates_dir_run settings s :
  get_templates_dir (ext:=ext) settings s
  = if Path_exists ext (TEMPLATES_DIR settings) (world s) || TESTING settings
    then (Returns (TEMPLATES_DIR settings), s)
    else (Raises (mk_exn ValueError
                    ("El directorio de templates no existe: "
                     +:+ TEMPLATES_DIR settings)), s).
Proof.
  unfold get_templates_dir, bind, path_exists.
  destruct (Path_exists ext (TEMPLATES_DIR settings) (world s)),
    (TESTING settings); reflexivity.
Qed.

(** The constructor, run on a key, a sender and a directory that are given. *)
Lemma init_with_all_given_run settings key sender dir testing s :
  key <> "" ->
  EmailService_init (ext:=ext) settings (Some key) (Some sender) (Some dir) testing s
  = if Path_exists ext dir (world s) || (testing || TESTING settings)
    then
      match jinja_Environment ext dir (world s) with
      | (Returns env, w') =>
          (Returns (mk_EmailService key sender (testing || TESTING settings) dir env),
           mk_St w'
             (logs s ++ [(INFO, "Motor de plantillas configurado con el directorio: "
                                +:+ dir)]) key)
      | (Raises err, w') =>
          (Raises (mk_exn EmailServiceError
                     ("Error al configurar el motor de plantillas: " +:+ exn_msg err)),
           mk_St w' (logs s) key)
      end
    else
      (Raises (mk_exn EmailServiceError
                 ("El directorio de templates no existe: " +:+ dir)),
       mk_St (world s) (logs s) key).
Proof.
  intros Hkey. apply str_truthy_true in Hkey.
  unfold EmailService_init. cbv zeta. unfold str_or. rewrite Hkey. cbv iota.
  rewrite Hkey. simpl negb. simpl andb. cbv iota.
  unfold bind, set_resend_api_key, ret, path_exists, try_except, call, log,
    service_error, raise.
  simpl.
  destruct (Path_exists ext dir (world s)), testing, (TESTING settings);
    simpl; try reflexivity;
    destruct (jinja_Environment ext dir (world s)) as [[env | err] w'];
    reflexivity.
Qed.

(** X13. The dependency that hands the service to the routes never lets
    an exception through.  Without a configured API key (also in testing
    mode, where the constructor itself would not ask for one) it raises
    an [HTTPException] with status 500 whose detail, and the [ERROR]
    record logged before it, quote "RESEND_API_KEY no configurada"; with
    an invalid default sender they quote the message of the validation
    error; with a templates directory that does not exist while the
    [TESTING] setting is off they quote "El directorio de templates no
    existe: " and the directory; when the template engine cannot be set
    up they quote the constructor's "Error al configurar el motor de
    plantillas: " and the message of the engine's error.  Otherwise it
    returns the service constructed with the key, the default sender, the
    [TESTING] setting and the directory, after the constructor's [INFO]
    record. *)
Theorem email_service_dependency settings s :
  get_email_service settings s
  = if str_truthy (RESEND_API_KEY settings)
    then
      match EmailStr_validate ext (DEFAULT_FROM_EMAIL settings) with
      | Raises err => dependency_failure (exn_msg err) s
      | Returns a =>
          if Path_exists ext (TEMPLATES_DIR settings) (world s) || TESTING settings
          then
            match jinja_Environment ext (TEMPLATES_DIR settings) (world s) with
            | (Returns env, w') =>
                (Returns
                   (HttpOk
                      (mk_EmailService (RESEND_API_KEY settings)
                         (mk_EmailAddress a (Some (DEFAULT_FROM_NAME settings)))
                         (TESTING settings) (TEMPLATES_DIR settings) env)),
                 mk_St w'
                   (logs s
                      ++ [(INFO, "Motor de plantillas configurado con el directorio: "
                                 +:+ TEMPLATES_DIR settings)])
                   (RESEND_API_KEY settings))
            | (Raises err, w') =>
                dependency_failure
                  ("Error al configurar el motor de plantillas: " +:+ exn_msg err)
                  (mk_St w' (logs s) (RESEND_API_KEY settings))
            end
          else
            dependency_failure
              ("El directorio de templates no existe: " +:+ TEMPLATES_DIR settings) s
      end
    else dependency_failure "RESEND_API_KEY no configurada" s.
Proof.
  unfold get_email_service, try_except, dependency_failure.
  destruct (str_truthy (RESEND_API_KEY settings)) eqn:Hkey; cbn [negb]; cbv iota.
  2:{ reflexivity. }
  apply str_truthy_true in Hkey.
  assert (Hfrom :
            lift (ext:=ext)
              (EmailAddress_new (ext:=ext) (DEFAULT_FROM_EMAIL settings)
                 (Some (DEFAULT_FROM_NAME settings))) s
            = (EmailAddress_new (ext:=ext) (DEFAULT_FROM_EMAIL settings)
                 (Some (DEFAULT_FROM_NAME settings)), s)) by reflexivity.
  unfold EmailAddress_new in Hfrom. unfold EmailAddress_new.
  destruct (EmailStr_validate ext (DEFAULT_FROM_EMAIL settings)) as [a | err] eqn:Ha.
  all: cbv iota in Hfrom |- *.
  2:{ rewrite (bind_raises _ _ _ _ _ Hfrom). reflexivity. }
  rewrite (bind_returns _ _ _ _ _ Hfrom).
  pose proof (get_templates_dir_run settings s) as Hdir.
  destruct (Path_exists ext (TEMPLATES_DIR settings) (world s) || TESTING settings)
    eqn:Hcond.
  2:{ rewrite (bind_raises _ _ _ _ _ Hdir). reflexivity. }
  rewrite (bind_returns _ _ _ _ _ Hdir).
  pose proof (init_with_all_given_run settings (RESEND_API_KEY settings)
                (mk_EmailAddress a (Some (DEFAULT_FROM_NAME settings)))
                (TEMPLATES_DIR settings) (TESTING settings) s Hkey) as Hinit.
  rewrite orb_diag, Hcond in Hinit.
  destruct (jinja_Environment ext (TEMPLATES_DIR settings) (world s))
    as [[env | err] w'] eqn:Henv.
  - rewrite (bind_returns _ _ _ _ _ Hinit). reflexivity.
  - rewrite (bind_raises _ _ _ _ _ Hinit). reflexivity.
Qed.

End ConstructionMore.

(** ** Address checks *)

Section AddressChecks.
#[local] Arguments String.append : simpl nomatch.

Lemma str_app_nil_r (s : string) : s +:+ "" = s.
Proof. induction s as [| c s IH]; simpl; [reflexivity | now rewrite IH]. Qed.

Lemma str_app_assoc (a b c : string) : (a +:+ b) +:+ c = a +:+ (b +:+ c).
Proof. induction a as [| x a IH]; simpl; [reflexivity | now rewrite IH]. Qed.

Lemma str_app_eq_nil (a b : string) : a +:+ b = "" -> a = "" /\ b = "".
Proof. destruct a; simpl; [auto | discriminate]. Qed.

Lemma nullable_lang r : Re.nullable r = true <-> Re.lang r "".
Proof.
  split.
  - induction r; simpl; intros H; try discriminate.
    + constructor.
    + apply andb_true_iff in H as [H1 H2].
      change "" with ("" +:+ ""). constructor; auto.
    + apply orb_true_iff in H as [H | H];
        [apply Re.lang_alt_l | apply Re.lang_alt_r]; auto.
    + constructor.
  - intros H. remember "" as s eqn:Hs. induction H; simpl; try reflexivity.
    + discriminate.
    + apply str_app_eq_nil in Hs as [-> ->]. now rewrite IHlang1, IHlang2.
    + now rewrite IHlang.
    + rewrite IHlang; [apply orb_true_r | assumption].
Qed.

Lemma lang_of_deriv c r : forall s, Re.lang (Re.deriv c r) s -> Re.lang r (String c s).
Proof.
  induction r as [| | p | r1 IH1 r2 IH2 | r1 IH1 r2 IH2 | r IH]; simpl; intros s H.
  - inversion H.
  - inversion H.
  - destruct (p c) eqn:Hp; inversion H; subst. now constructor.
  - destruct (Re.nullable r1) eqn:Hn.
    + inversion H as [| | | ? ? ? H' | ? ? ? H' | |]; subst.
      * inversion H' as [| | ? ? s1 s2 Ha Hb | | | |]; subst.
        change (String c (s1 +:+ s2)) with (String c s1 +:+ s2).
        constructor; auto.
      * change (String c s) with ("" +:+ String c s).
        constructor; [now apply nullable_lang | auto].
    + inversion H as [| | ? ? s1 s2 Ha Hb | | | |]; subst.
      change (String c (s1 +:+ s2)) with (String c s1 +:+ s2).
      constructor; auto.
  - inversion H; subst; [apply Re.lang_alt_l | apply Re.lang_alt_r]; auto.
  - inversion H as [| | ? ? s1 s2 Ha Hb | | | |]; subst.
    change (String c (s1 +:+ s2)) with (String c s1 +:+ s2).
    constructor; auto.
Qed.

Lemma deriv_of_lang r t :
  Re.lang r t -> forall c s, t = String c s -> Re.lang (Re.deriv c r) s.
Proof.
  induction 1 as [| p c0 Hp | r1 r2 s1 s2 H1 IH1 H2 IH2 | r1 r2 s0 H0 IH0
                  | r1 r2 s0 H0 IH0 | r | r s1 s2 H1 IH1 H2 IH2];
    intros c s Heq; simpl.
  - discriminate.
  - injection Heq as -> <-. rewrite Hp. constructor.
  - destruct s1 as [| c1 s1']; simpl in Heq.
    + subst s2. apply nullable_lang in H1. rewrite H1.
      apply Re.lang_alt_r. now apply IH2.
    + injection Heq as -> <-.
      assert (Hcat : Re.lang (Re.Cat (Re.deriv c r1) r2) (s1' +:+ s2))
        by (constructor; [now apply IH1 | assumption]).
      destruct (Re.nullable r1); [now apply Re.lang_alt_l | assumption].
  - apply Re.lang_alt_l. now apply IH0.
  - apply Re.lang_alt_r. now apply IH0.
  - discriminate.
  - destruct s1 as [| c1 s1']; simpl in Heq.
    + now apply IH2.
    + injection Heq as -> <-. constructor; [now apply IH1 | assumption].
Qed.

(** The matcher decides the language of the expression. *)
Lemma fullmatch_lang s : forall r, Re.fullmatch r s = true <-> Re.lang r s.
Proof.
  induction s as [| c s IH]; intros r; simpl.
  - apply nullable_lang.
  - rewrite IH. split; [apply lang_of_deriv |].
    intros H. eapply deriv_of_lang; eauto.
Qed.

Lemma lang_class p s : Re.lang (Re.Class p) s <-> exists c, s = String c "" /\ p c = true.
Proof.
  split.
  - intros H. inversion H; subst. eauto.
  - intros (c & -> & Hp). now constructor.
Qed.

Lemma lang_cat r1 r2 s :
  Re.lang (Re.Cat r1 r2) s
  <-> exists s1 s2, s = s1 +:+ s2 /\ Re.lang r1 s1 /\ Re.lang r2 s2.
Proof.
  split.
  - intros H. inversion H; subst. eauto.
  - intros (s1 & s2 & -> & H1 & H2). now constructor.
Qed.

Lemma lang_star_class p s :
  Re.lang (Re.Star (Re.Class p)) s <-> Re.all_chars p s = true.
Proof.
  split.
  - intros H. remember (Re.Star (Re.Class p)) as r eqn:Hr.
    induction H; try discriminate; [reflexivity |].
    injection Hr as ->. apply lang_class in H as (c & -> & Hp).
    simpl. rewrite Hp. now apply IHlang2.
  - induction s as [| c s IH]; simpl; intros H; [constructor |].
    apply andb_true_iff in H as [Hp Hs].
    change (String c s) with (String c "" +:+ s).
    constructor; [now constructor | auto].
Qed.

Lemma lang_plus_class p s :
  Re.lang (Re.Plus (Re.Class p)) s <-> s <> "" /\ Re.all_chars p s = true.
Proof.
  unfold Re.Plus. rewrite lang_cat. split.
  - intros (s1 & s2 & -> & H1 & H2).
    apply lang_class in H1 as (c & -> & Hp). apply lang_star_class in H2.
    simpl. rewrite Hp, H2. split; [discriminate | reflexivity].
  - intros [Hne H]. destruct s as [| c s]; [congruence |].
    simpl in H. apply andb_true_iff in H as [Hp Hs].
    exists (String c ""), s. split; [reflexivity |].
    split; [now constructor | now apply lang_star_class].
Qed.

Lemma lang_atleast2_class p s :
  Re.lang (Re.AtLeast2 (Re.Class p)) s
  <-> (2 <= String.length s)%nat /\ Re.all_chars p s = true.
Proof.
  unfold Re.AtLeast2. rewrite lang_cat. split.
  - intros (s1 & s2 & -> & H1 & H2).
    apply lang_class in H1 as (c & -> & Hp).
    apply lang_cat in H2 as (s3 & s4 & -> & H3 & H4).
    apply lang_class in H3 as (c' & -> & Hp'). apply lang_star_class in H4.
    simpl. rewrite Hp, Hp', H4. split; [lia | reflexivity].
  - intros [Hlen H]. destruct s as [| c [| c' s]]; simpl in Hlen; try lia.
    simpl in H. apply andb_true_iff in H as [Hp H].
    apply andb_true_iff in H as [Hp' Hs].
    exists (String c ""), (String c' s). split; [reflexivity |].
    split; [now constructor |]. apply lang_cat.
    exists (String c' ""), s. split; [reflexivity |].
    split; [now constructor | now apply lang_star_class].
Qed.

Lemma lang_char c s : Re.lang (Re.Class (Ascii.eqb c)) s <-> s = String c "".
Proof.
  rewrite lang_class. split.
  - intros (c' & -> & H). apply Ascii.eqb_eq in H. now subst.
  - intros ->. exists c. split; [reflexivity | apply Ascii.eqb_refl].
Qed.

(** The strings of [EMAIL_PATTERN]. *)
Lemma email_pattern_lang s :
  Re.lang EMAIL_PATTERN s
  <-> exists local_part domain tld,
        s = local_part +:+ "@" +:+ domain +:+ "." +:+ tld
        /\ local_part <> "" /\ Re.all_chars is_local_char local_part = true
        /\ domain <> "" /\ Re.all_chars is_domain_char domain = true
        /\ (2 <= String.length tld)%nat /\ Re.all_chars is_alpha tld = true.
Proof.
  unfold EMAIL_PATTERN. split.
  - intros H.
    apply lang_cat in H as (l & r1 & -> & Hl & H).
    apply lang_cat in H as (a & r2 & -> & Ha & H).
    apply lang_cat in H as (d & r3 & -> & Hd & H).
    apply lang_cat in H as (dot & t & -> & Hdot & Ht).
    apply lang_plus_class in Hl as [Hl1 Hl2].
    apply lang_char in Ha as ->.
    apply lang_plus_class in Hd as [Hd1 Hd2].
    apply lang_char in Hdot as ->.
    apply lang_atleast2_class in Ht as [Ht1 Ht2].
    exists l, d, t. repeat split; auto.
  - intros (l & d & t & -> & Hl1 & Hl2 & Hd1 & Hd2 & Ht1 & Ht2).
    apply lang_cat. exists l, ("@" +:+ d +:+ "." +:+ t).
    split; [reflexivity |]. split; [now apply lang_plus_class |].
    apply lang_cat. exists "@", (d +:+ "." +:+ t).
    split; [reflexivity |]. split; [now apply lang_char |].
    apply lang_cat. exists d, ("." +:+ t).
    split; [reflexivity |]. split; [now apply lang_plus_class |].
    apply lang_cat. exists ".", t.
    split; [reflexivity |]. split; [now apply lang_char |].
    now apply lang_atleast2_class.
Qed.

Lemma match_anchored_lang r s :
  Re.match_anchored r s = true
  <-> Re.lang r s \/ exists s0, s = s0 +:+ String Re.newline "" /\ Re.lang r s0.
Proof.
  unfold Re.match_anchored. rewrite fullmatch_lang, lang_cat. split.
  - intros (s1 & s2 & -> & H1 & H2).
    inversion H2 as [| | | ? ? ? H | ? ? ? H | |]; subst.
    + inversion H; subst. rewrite str_app_nil_r. now left.
    + apply lang_char in H as ->. right. eauto.
  - intros [H | (s0 & -> & H)].
    + exists s, "". rewrite str_app_nil_r. split; [reflexivity |].
      split; [assumption |]. apply Re.lang_alt_l. constructor.
    + exists s0, (String Re.newline ""). split; [reflexivity |].
      split; [assumption |]. apply Re.lang_alt_r. now apply lang_char.
Qed.

(** X14. [validate_email] accepts exactly the strings made of a non-empty
    local part of letters, digits and [._%+-], an [@], a non-empty domain
    of letters, digits, dots and hyphens, a dot and at least two letters,
    alone or followed by one newline at the very end (the [$] of the
    pattern also holds just before a final newline). *)
Theorem validate_email_accepts_iff (s : string) :
  validate_email s = true
  <-> exists local_part domain tld,
        (s = local_part +:+ "@" +:+ domain +:+ "." +:+ tld
         \/ s = local_part +:+ "@" +:+ domain +:+ "." +:+ tld
                +:+ String Re.newline "")
        /\ local_part <> "" /\ Re.all_chars is_local_char local_part = true
        /\ domain <> "" /\ Re.all_chars is_domain_char domain = true
        /\ (2 <= String.length tld)%nat /\ Re.all_chars is_alpha tld = true.
Proof.
  unfold validate_email. split.
  - destruct (str_truthy s); simpl; [| discriminate].
    intros H. apply match_anchored_lang in H as [H | (s0 & -> & H)];
      apply email_pattern_lang in H as (l & d & t & -> & Hrest);
      exists l, d, t; (split; [| exact Hrest]); [now left | right].
    now rewrite !str_app_assoc.
  - intros (l & d & t & Hs & Hl1 & Hl2 & Hd1 & Hd2 & Ht1 & Ht2).
    assert (Hne : str_truthy s = true).
    { apply str_truthy_true. destruct l; [congruence |].
      destruct Hs as [-> | ->]; discriminate. }
    rewrite Hne. simpl. apply match_anchored_lang.
    assert (Hlang : Re.lang EMAIL_PATTERN (l +:+ "@" +:+ d +:+ "." +:+ t)).
    { apply email_pattern_lang. exists l, d, t. repeat split; auto. }
    destruct Hs as [-> | ->]; [now left | right].
    exists (l +:+ "@" +:+ d +:+ "." +:+ t). split; [| assumption].
    now rewrite !str_app_assoc.
Qed.

Lemma validate_email_shape (s : string) :
  validate_email s = true ->
  exists l d t nl,
    s = l +:+ "@" +:+ d +:+ "." +:+ t +:+ nl
    /\ (nl = "" \/ nl = String Re.newline "")
    /\ Re.all_chars is_local_char l = true
    /\ Re.all_chars is_domain_char d = true
    /\ Re.all_chars is_alpha t = true.
Proof.
  unfold validate_email. destruct (str_truthy s); simpl; [| discriminate].
  intros H. apply match_anchored_lang in H as [H | (s0 & -> & H)];
    apply email_pattern_lang in H as (l & d & t & -> & _ & Hl & _ & Hd & _ & Ht).
  - exists l, d, t, "". rewrite str_app_nil_r. repeat split; auto.
  - exists l, d, t, (String Re.newline ""). rewrite !str_app_assoc.
    repeat split; auto.
Qed.

Lemma count_char_app c (a b : string) :
  count_char c (a +:+ b) = (count_char c a + count_char c b)%nat.
Proof. induction a as [| x a IH]; simpl; [reflexivity | rewrite IH; lia]. Qed.

Lemma count_char_outside_class c p s :
  p c = false -> Re.all_chars p s = true -> count_char c s = 0%nat.
Proof.
  intros Hc. induction s as [| x s IH]; simpl; [reflexivity |].
  intros H. apply andb_true_iff in H as [Hx Hs].
  destruct (Ascii.eqb_spec c x); [congruence | now apply IH].
Qed.

(** X15. An address that [validate_email] accepts has exactly one [@] and
    no space. *)
Theorem accepted_address_has_one_at_and_no_space (s : string) :
  validate_email s = true ->
  count_char "@" s = 1%nat /\ count_char " " s = 0%nat.
Proof.
  intros H. apply validate_email_shape in H
    as (l & d & t & nl & -> & Hnl & Hl & Hd & Ht).
  rewrite !count_char_app.
  rewrite (count_char_outside_class "@" _ l eq_refl Hl),
    (count_char_outside_class "@" _ d eq_refl Hd),
    (count_char_outside_class "@" _ t eq_refl Ht),
    (count_char_outside_class " " _ l eq_refl Hl),
    (count_char_outside_class " " _ d eq_refl Hd),
    (count_char_outside_class " " _ t eq_refl Ht).
  destruct Hnl as [-> | ->]; split; reflexivity.
Qed.

Lemma validate_emails_loop_run emails :
  forall valid invalid warnings,
    validate_emails_loop emails valid invalid warnings
    = (valid ++ List.filter validate_email emails,
       invalid ++ List.filter (fun a => negb (validate_email a)) emails,
       warnings
         ++ map (fun a => (WARNING, "Email inválido: " +:+ a))
              (List.filter (fun a => negb (validate_email a)) emails)).
Proof.
  induction emails as [| a rest IH]; intros valid invalid warnings; simpl.
  - now rewrite !app_nil_r.
  - destruct (validate_email a); simpl; rewrite IH, <- ?app_assoc; reflexivity.
Qed.

Lemma filter_split_length {A} (f : A -> bool) (l : list A) :
  (length (List.filter f l) + length (List.filter (fun a => negb (f a)) l))%nat
  = length l.
Proof.
  induction l as [| a l IH]; simpl; [reflexivity |].
  destruct (f a); simpl; lia.
Qed.

(** X16. [validate_emails] sorts the addresses into the valid and the
    invalid ones, each list in the order of the input, so that every
    address is in exactly one of the two and their lengths add up to the
    length of the input; it logs one warning per invalid address, in
    order, after the records already there. *)
Theorem validate_emails_partitions (emails : list string)
    (warnings : list (log_level * string)) :
  validate_emails emails warnings
  = (List.filter validate_email emails,
     List.filter (fun a => negb (validate_email a)) emails,
     warnings
       ++ map (fun a => (WARNING, "Email inválido: " +:+ a))
            (List.filter (fun a => negb (validate_email a)) emails))
  /\ (length (List.filter validate_email emails)
      + length (List.filter (fun a => negb (validate_email a)) emails))%nat
     = length emails.
Proof.
  split; [| apply filter_split_length].
  unfold validate_emails. now rewrite validate_emails_loop_run.
Qed.

End AddressChecks.

(** ** Concrete runs of the further properties *)

Lemma template_data_entries_witness :
  get_template_data Stub.order_mail (Stub.start (ext:=Stub.healthy) 0)
  = (Returns
       (Dict.update (base_template_data Stub.acme 2026)
          [ ("customer", person_data Stub.ann "Cliente");
            ("order_info",
             order_info_data
               (mk_Order "A-17" [mk_OrderItem "Pen" 3 0.5%float None]
                  "2 Side St" "3 days")
               [ PDict [ ("name", PStr "Pen"); ("sku", PStr "N/A");
                         ("quantity", PInt 3); ("price", PStr "0.50");
                         ("total", PStr "1.50") ] ]
               (mk_datetime 2026 11 4 0 0) 1.5%float) ]),
     mk_St (ext:=Stub.healthy) 1 [] "")
  /\ Dict.get "year"
       (Dict.update (base_template_data Stub.acme 2026)
          [ ("customer", person_data Stub.ann "Cliente");
            ("order_info",
             order_info_data
               (mk_Order "A-17" [mk_OrderItem "Pen" 3 0.5%float None]
                  "2 Side St" "3 days")
               [ PDict [ ("name", PStr "Pen"); ("sku", PStr "N/A");
                         ("quantity", PInt 3); ("price", PStr "0.50");
                         ("total", PStr "1.50") ] ]
               (mk_datetime 2026 11 4 0 0) 1.5%float) ])
     = Some (PInt 2026).
Proof.
  split; [reflexivity |].
  exact (proj1 (proj2 (template_data_entries (ext:=Stub.healthy) Stub.order_mail
                         (Stub.start (ext:=Stub.healthy) 0) _ _ eq_refl))).
Defined.

Lemma template_data_raises_only_on_overflow_witness :
  get_template_data
    (OrderConfirmationEmail Stub.acme 2026 Stub.ann
       (mk_Order "A-18" [mk_OrderItem "Pen" (2 ^ 1024) 0.5%float None]
          "2 Side St" "3 days"))
    (Stub.start (ext:=Stub.healthy) 0)
  = (Raises (mk_exn OverflowError "int too large to convert to float"),
     Stub.start (ext:=Stub.healthy) 0)
  /\ Stub.start (ext:=Stub.healthy) 0 = Stub.start (ext:=Stub.healthy) 0.
Proof.
  split; [vm_compute; reflexivity |].
  refine (proj1 (template_data_raises_only_on_overflow (ext:=Stub.healthy)
                   (OrderConfirmationEmail Stub.acme 2026 Stub.ann
                      (mk_Order "A-18" [mk_OrderItem "Pen" (2 ^ 1024) 0.5%float None]
                         "2 Side St" "3 days"))
                   (Stub.start (ext:=Stub.healthy) 0)
                   (mk_exn OverflowError "int too large to convert to float")
                   (Stub.start (ext:=Stub.healthy) 0) _)).
  vm_compute. reflexivity.
Defined.

Lemma personalization_touches_only_user_witness :
  personalize_data (ext:=Stub.healthy) Stub.bob
    [ ("year", PInt 2026);
      ("user", PDict [("name", PStr "Ann"); ("email", PStr "ann@x.test")]);
      ("dashboard_url", PStr "https://acme.test/d") ]
    (Stub.start (ext:=Stub.healthy) 0)
  = (Returns
       [ ("year", PInt 2026);
         ("user", PDict [("name", PStr "Ann"); ("email", PStr "bob@x.test")]);
         ("dashboard_url", PStr "https://acme.test/d") ],
     Stub.start (ext:=Stub.healthy) 0)
  /\ Dict.keys
       [ ("year", PInt 2026);
         ("user", PDict [("name", PStr "Ann"); ("email", PStr "bob@x.test")]);
         ("dashboard_url", PStr "https://acme.test/d") ]
     = Dict.keys
         [ ("year", PInt 2026);
           ("user", PDict [("name", PStr "Ann"); ("email", PStr "ann@x.test")]);
           ("dashboard_url", PStr "https://acme.test/d") ].
Proof.
  split; [reflexivity |].
  exact (proj1 (proj2 (personalization_touches_only_user (ext:=Stub.healthy)
                         Stub.bob
                         [ ("year", PInt 2026);
                           ("user", PDict [("name", PStr "Ann");
                                           ("email", PStr "ann@x.test")]);
                           ("dashboard_url", PStr "https://acme.test/d") ]
                         [ ("year", PInt 2026);
                           ("user", PDict [("name", PStr "Ann");
                                           ("email", PStr "bob@x.test")]);
                           ("dashboard_url", PStr "https://acme.test/d") ]
                         (Stub.start (ext:=Stub.healthy) 0)
                         (Stub.start (ext:=Stub.healthy) 0) eq_refl))).
Defined.

Lemma order_confirmation_is_not_personalized_witness :
  exists d,
    fst (get_template_data Stub.order_mail (Stub.start (ext:=Stub.healthy) 0))
    = Returns d
    /\ personalize_data Stub.bob d (Stub.start (ext:=Stub.healthy) 5)
       = (Returns d, Stub.start (ext:=Stub.healthy) 5)
    /\ batch_personalize_data Stub.bob d (Stub.start (ext:=Stub.healthy) 5)
       = (Returns d, Stub.start (ext:=Stub.healthy) 5).
Proof.
  eexists. split; [reflexivity |].
  exact (order_confirmation_is_not_personalized (ext:=Stub.healthy) Stub.acme 2026
           Stub.ann
           (mk_Order "A-17" [mk_OrderItem "Pen" 3 0.5%float None] "2 Side St" "3 days")
           (Stub.start (ext:=Stub.healthy) 0) _ _ Stub.bob
           (Stub.start (ext:=Stub.healthy) 5) eq_refl).
Defined.

Lemma batch_personalizes_like_send_witness :
  exists d,
    fst (get_template_data Stub.welcome (Stub.start (ext:=Stub.healthy) 0))
    = Returns d
    /\ batch_personalize_data Stub.bob d (Stub.start (ext:=Stub.healthy) 0)
       = personalize_data Stub.bob d (Stub.start (ext:=Stub.healthy) 0).
Proof.
  eexists. split; [reflexivity |].
  exact (batch_personalizes_like_send (ext:=Stub.healthy) Stub.welcome
           (Stub.start (ext:=Stub.healthy) 0) _ _ Stub.bob
           (Stub.start (ext:=Stub.healthy) 0) eq_refl).
Defined.

Lemma send_batch_outcomes_follow_entries_witness :
  validate Stub.welcome = Returns tt
  /\ [ ({[ "email" := "ann@x.test"; "name" := "Ann" ]} : gmap string string);
       {[ "name" := "Nobody" ]};
       {[ "email" := "not-an-address" ]};
       {[ "email" := "bob@x.test" ]} ] <> []
  /\ exists outcomes s1 n_ok n_err,
      send_batch (Stub.service Stub.bob_rejected "templates" false) Stub.welcome
        [ {[ "email" := "ann@x.test"; "name" := "Ann" ]};
          {[ "name" := "Nobody" ]};
          {[ "email" := "not-an-address" ]};
          {[ "email" := "bob@x.test" ]} ] "Hi" None
        (Stub.start (ext:=Stub.bob_rejected) 0)
      = (Returns outcomes,
         logged INFO ("Envío en lote completado: " +:+ str_of_Z n_ok
                      +:+ " exitosos, " +:+ str_of_Z n_err +:+ " errores") s1)
      /\ batch_outcomes (Stub.service Stub.bob_rejected "templates" false)
           Stub.welcome
           (default (default_from (Stub.service Stub.bob_rejected "templates" false))
              None)
           "Hi"
           [ {[ "email" := "ann@x.test"; "name" := "Ann" ]};
             {[ "name" := "Nobody" ]};
             {[ "email" := "not-an-address" ]};
             {[ "email" := "bob@x.test" ]} ]
           (Stub.start (ext:=Stub.bob_rejected) 0) outcomes s1.
Proof.
  split; [reflexivity |]. split; [discriminate |].
  apply (send_batch_outcomes_follow_entries (ext:=Stub.bob_rejected));
    [reflexivity | discriminate].
Defined.

(** The four entries above leave three outcomes: a receipt, the error of
    the address that could not be constructed, the error of the provider. *)
Example batch_outcomes_of_four_entries :
  fst (send_batch (Stub.service Stub.bob_rejected "templates" false) Stub.welcome
         [ {[ "email" := "ann@x.test"; "name" := "Ann" ]};
           {[ "name" := "Nobody" ]};
           {[ "email" := "not-an-address" ]};
           {[ "email" := "bob@x.test" ]} ] "Hi" None
         (Stub.start (ext:=Stub.bob_rejected) 0))
  = Returns [ [("id", PStr "msg-Ann <ann@x.test>")];
              [("error", PStr "value is not a valid email address")];
              error_record "rejected: bob@x.test" "bob@x.test" ].
Proof. vm_compute. reflexivity. Qed.

Lemma plain_test_send_returns_the_parameters_witness :
  testing (Stub.service Stub.healthy "templates" true) = true
  /\ exists data s1 html,
      get_template_data Stub.welcome (Stub.start (ext:=Stub.healthy) 0)
      = (Returns data, s1)
      /\ _render_with_inline_styles (Stub.service Stub.healthy "templates" true)
           (template_name Stub.welcome) data s1
         = (Returns html, Stub.start (ext:=Stub.healthy) 0)
      /\ Single [ ("from", PStr "Acme <no-reply@acme.test>");
                  ("to", PList [PStr "Ann <ann@x.test>"; PStr "bob@x.test"]);
                  ("subject", PStr "Hi");
                  ("html", PStr "<style-inlined><p class=g>welcome.html: Ann</p>");
                  ("cc", PList [PStr "Eve <eve@x.test>"]) ]
         = Single (_prepare_email_params
                     (default
                        (default_from (Stub.service Stub.healthy "templates" true))
                        None)
                     (recipients_of (inr [Stub.ann; Stub.bob])) "Hi" html
                     (Some [Stub.eve]) (Some [])).
Proof.
  split; [reflexivity |].
  exact (plain_test_send_returns_the_parameters (ext:=Stub.healthy)
           (Stub.service Stub.healthy "templates" true) Stub.welcome
           (inr [Stub.ann; Stub.bob]) "Hi" None (Some [Stub.eve]) (Some [])
           (Stub.start (ext:=Stub.healthy) 0) _ _ eq_refl eq_refl).
Defined.

Lemma personalized_test_send_addresses_each_recipient_alone_witness :
  testing (Stub.service Stub.healthy "templates" true) = true
  /\ exists outcomes,
      Many [ [ ("from", PStr "Acme <no-reply@acme.test>");
               ("to", PList [PStr "Ann <ann@x.test>"]);
               ("subject", PStr "Hi");
               ("html", PStr "<style-inlined><p class=g>welcome.html: Ann</p>") ];
             [ ("from", PStr "Acme <no-reply@acme.test>");
               ("to", PList [PStr "bob@x.test"]);
               ("subject", PStr "Hi");
               ("html", PStr "<style-inlined><p class=g>welcome.html: Ann</p>") ] ]
      = Many outcomes
      /\ Forall2
           (fun recipient d =>
              (exists msg, d = error_record msg (email recipient))
              \/ (exists html,
                    d = _prepare_email_params
                          (default
                             (default_from (Stub.service Stub.healthy "templates" true))
                             None)
                          [recipient] "Hi" html None None
                    /\ Dict.get "cc" d = None /\ Dict.get "bcc" d = None))
           (recipients_of (inr [Stub.ann; Stub.bob])) outcomes.
Proof.
  split; [reflexivity |].
  exact (personalized_test_send_addresses_each_recipient_alone (ext:=Stub.healthy)
           (Stub.service Stub.healthy "templates" true) Stub.welcome
           (inr [Stub.ann; Stub.bob]) "Hi" None (Some [Stub.eve]) None
           (Stub.start (ext:=Stub.healthy) 0) _ _ eq_refl eq_refl).
Defined.

Lemma testing_mode_never_calls_the_provider_witness :
  testing (Stub.service Stub.healthy "templates" true) = true
  /\ send (swap_service (ext:=Stub.healthy) (Stub.deliver ["bob@x.test"])
             (Stub.service Stub.healthy "templates" true))
       Stub.welcome (inr [Stub.ann; Stub.bob]) "Hi" None None None true
       (swap_state (ext:=Stub.healthy) (Stub.deliver ["bob@x.test"]) (Stub.start (ext:=Stub.healthy) 0))
     = swap_run (ext:=Stub.healthy) (Stub.deliver ["bob@x.test"])
         (send (Stub.service Stub.healthy "templates" true) Stub.welcome
            (inr [Stub.ann; Stub.bob]) "Hi" None None None true
            (Stub.start (ext:=Stub.healthy) 0))
  /\ send_batch (swap_service (ext:=Stub.healthy) (Stub.deliver ["bob@x.test"])
                   (Stub.service Stub.healthy "templates" true))
       Stub.welcome [ {[ "email" := "bob@x.test" ]} ] "Hi" None
       (swap_state (ext:=Stub.healthy) (Stub.deliver ["bob@x.test"]) (Stub.start (ext:=Stub.healthy) 0))
     = swap_run (ext:=Stub.healthy) (Stub.deliver ["bob@x.test"])
         (send_batch (Stub.service Stub.healthy "templates" true) Stub.welcome
            [ {[ "email" := "bob@x.test" ]} ] "Hi" None
            (Stub.start (ext:=Stub.healthy) 0)).
Proof.
  split; [reflexivity |].
  exact (testing_mode_never_calls_the_provider (ext:=Stub.healthy)
           (Stub.deliver ["bob@x.test"])
           (Stub.service Stub.healthy "templates" true) Stub.welcome
           (inr [Stub.ann; Stub.bob]) [ {[ "email" := "bob@x.test" ]} ]
           "Hi" None None None true (Stub.start (ext:=Stub.healthy) 0) eq_refl).
Defined.

Lemma accepted_address_has_one_at_and_no_space_witness :
  validate_email "ann.b+c@x-y.test.org" = true
  /\ count_char "@" "ann.b+c@x-y.test.org" = 1%nat
  /\ count_char " " "ann.b+c@x-y.test.org" = 0%nat.
Proof.
  split; [reflexivity |].
  apply (accepted_address_has_one_at_and_no_space "ann.b+c@x-y.test.org").
  reflexivity.
Defined.

(** What the check accepts and rejects: a final newline passes, a space,
    a second [@], a one-letter ending and the empty string do not. *)
Example validate_email_samples :
  map validate_email
    [ "a@b.co"; "a@b.co" +:+ String Re.newline ""; "a b@c.de"; "a@@b.co";
      "a@b.c"; ""; "A.B+C%D@X-Y.Z.ORG" ]
  = [true; true; false; false; false; false; true].
Proof. vm_compute. reflexivity. Qed.
